(** * csesoc.unsw.edu.au backend: a shallow embedding of [server/server.go]

    The handlers of [server.go] are thin glue around four collaborators:
    the LDAP directory, the JWT library, the MongoDB driver and the UUID
    library.  The handlers themselves are embedded below as state-passing
    programs over an explicit record store; everything the collaborators
    decide (does the bind succeed, what does a parse return, what time is it)
    is read from an environment record [Env], so that every theorem holds
    for any behaviour of the collaborators.  A reference environment
    [RefEnv.env] gives each of them a small executable implementation on
    which the handlers can be run. *)

From Stdlib Require Import ZArith List String Ascii Bool Lia.
From Stdlib Require Import DecimalString DecimalZ.
Import ListNotations.
Local Open Scope string_scope.
Local Open Scope Z_scope.

(** ** Go's [strconv.Atoi] (64-bit [int]) *)

Module strconv.

Definition maxInt : Z := 9223372036854775807.
Definition minInt : Z := -9223372036854775808.

Definition isDigit (c : ascii) : bool :=
  ((48 <=? nat_of_ascii c) && (nat_of_ascii c <=? 57))%nat.

Definition digitVal (c : ascii) : Z := Z.of_nat (nat_of_ascii c) - 48.

(** [n = n*10 + int(ch)] over the bytes of the string; [None] is the
    syntax error raised at the first byte that is not a decimal digit. *)
Fixpoint parseDigits (s : string) (n : Z) : option Z :=
  match s with
  | EmptyString => Some n
  | String ch s' =>
      if isDigit ch then parseDigits s' (n * 10 + digitVal ch) else None
  end.

(** The text after an optional leading sign. *)
Definition unsignedPart (s : string) : string :=
  match s with
  | String c rest => if (Ascii.eqb c "-" || Ascii.eqb c "+")%bool then rest else s
  | EmptyString => EmptyString
  end.

Definition isNegative (s : string) : bool :=
  match s with
  | String c _ => Ascii.eqb c "-"
  | EmptyString => false
  end.

(** A string is numeric when it is an optional sign followed by at least
    one decimal digit and nothing else. *)
Definition numeric (s : string) : bool :=
  match unsignedPart s with
  | EmptyString => false
  | body => match parseDigits body 0 with Some _ => true | None => false end
  end.

(** [Atoi s] is the pair of the value and of [err != nil].  A syntax error
    gives 0; a value out of the range of [int] gives the nearest bound. *)
Definition Atoi (s : string) : Z * bool :=
  match unsignedPart s with
  | EmptyString => (0, true)
  | body =>
      match parseDigits body 0 with
      | None => (0, true)
      | Some n =>
          let v := if isNegative s then - n else n in
          if maxInt <? v then (maxInt, true)
          else if v <? minInt then (minInt, true)
          else (v, false)
      end
  end.

End strconv.

(** ** Requests and responses (echo) *)

(** Query and form parameters, in the order they were sent. *)
Record Request := mkRequest {
  query : list (string * string);
  form : list (string * string)
}.

Fixpoint lookupParam (name : string) (ps : list (string * string)) : string :=
  match ps with
  | [] => ""
  | (k, v) :: ps' => if String.eqb k name then v else lookupParam name ps'
  end.

(** [c.QueryParam(name)] and [c.FormValue(name)]: the first value sent under
    the name, the empty string when there is none. *)
Definition QueryParam (c : Request) (name : string) : string :=
  lookupParam name (query c).

Definition FormValue (c : Request) (name : string) : string :=
  lookupParam name (form c).

Definition StatusOK : Z := 200.

(** ** How a handler ends

    A handler either returns to echo, or calls [log.Fatal] (which logs and
    exits the whole process with status 1), or panics at run time (index out
    of range, nil dereference, [uuid.Must]). *)
Inductive Outcome (A : Type) : Type :=
| Returned (a : A)
| Fatal
| Panicked.
Arguments Returned {A} a.
Arguments Fatal {A}.
Arguments Panicked {A}.

(** ** Data model ([server.go], lines 21-67) *)

(** [H]: a JSON object, as the list of its keys and values. *)
Definition H (V : Type) : Type := list (string * V).

Record Response (V : Type) : Type := JSON {
  status : Z;
  body : H V
}.
Arguments JSON {V} status body.
Arguments status {V} r.
Arguments body {V} r.

(** [time.Time] values are kept as Unix seconds, which is all the handlers
    read from them ([expirationTime.Unix()], [expiryTime.Unix()]). *)
Definition Time : Type := Z.

Record Post := mkPost {
  postID : Z;
  postTitle : string;
  postSubtitle : string;
  postType : string;
  postCategory : Z;
  createdOn : Time;
  lastEditedOn : Time;
  postContent : string;
  postLinkGithub : string;
  postLinkFacebook : string;
  showInMenu : bool
}.

(** The fields of [User], like those of [Post], [Category], [Sponsor] and
    the two own fields of [Claims], are unexported: the BSON and JSON codecs
    skip them (see the codec below). *)
Record User := mkUser {
  userID : string;     (* sha256 of the zid, as a byte string *)
  userToken : string;
  role : string
}.

Definition UUID : Type := string.

Record Sponsor := mkSponsor {
  sponsorID : UUID;
  sponsorName : string;
  sponsorLogo : string;
  sponsorTier : string;
  expiry : Z
}.

(** [Claims] embeds [jwt.StandardClaims], of which only [ExpiresAt] is set. *)
Record Claims := mkClaims {
  hashedZID : string;
  firstName : string;
  ExpiresAt : Z
}.

(** ** The collaborators' data *)

Module jwt.

(** The fields of [jwt.Token] that [login] reaches. *)
Record Token := mkToken {
  Method : string;
  Header : list (string * string);
  TokenClaims : Claims;
  Valid : bool
}.

Definition SigningMethodHS256 : string := "HS256".

(** [jwt.NewWithClaims]: a fresh, not yet validated token. *)
Definition NewWithClaims (method : string) (claims : Claims) : Token :=
  {| Method := method;
     Header := [("typ", "JWT"); ("alg", method)];
     TokenClaims := claims;
     Valid := false |}.

(** [StandardClaims.Valid] at clock reading [now], for claims that set
    [ExpiresAt] only: an expiry of 0 means none was set, otherwise the
    token is good up to and including its expiry second. *)
Definition verifyExp (exp now : Z) : bool :=
  if exp =? 0 then true else now <=? exp.

End jwt.

Module ldap.

Record EntryAttribute := mkAttribute {
  Name : string;
  Values : list string
}.

Record Entry := mkEntry {
  DN : string;
  Attributes : list EntryAttribute
}.

Record SearchRequest := NewSearchRequest {
  BaseDN : string;
  Scope : Z;
  DerefAliases : Z;
  SizeLimit : Z;
  TimeLimit : Z;
  TypesOnly : bool;
  Filter : string;
  ReqAttributes : list string
}.

Definition ScopeWholeSubtree : Z := 2.
Definition NeverDerefAliases : Z := 0.

(** [Entry.GetAttributeValues]: the values of the first attribute of that
    name, none when the entry has no such attribute. *)
Fixpoint GetAttributeValues (attrs : list EntryAttribute) (attribute : string)
  : list string :=
  match attrs with
  | [] => []
  | a :: attrs' =>
      if String.eqb (Name a) attribute then Values a
      else GetAttributeValues attrs' attribute
  end.

(** [Entry.GetAttributeValue]: the first of them, or the empty string. *)
Definition GetAttributeValue (e : Entry) (attribute : string) : string :=
  match GetAttributeValues (Attributes e) attribute with
  | [] => ""
  | v :: _ => v
  end.

End ldap.

Module bson.

Inductive Value :=
| Null
| Str (s : string)
| Int (z : Z)
| Boolean (b : bool).

(** [bson.D], also used for a stored document. *)
Definition D : Type := list (string * Value).

Definition Value_eqb (a b : Value) : bool :=
  match a, b with
  | Null, Null => true
  | Str s, Str s' => String.eqb s s'
  | Int z, Int z' => Z.eqb z z'
  | Boolean x, Boolean y => Bool.eqb x y
  | _, _ => false
  end.

Fixpoint field (key : string) (doc : D) : option Value :=
  match doc with
  | [] => None
  | (k, v) :: doc' => if String.eqb k key then Some v else field key doc'
  end.

(** One equality condition of a filter: a [Null] condition also matches a
    document without the field. *)
Definition holds (doc : D) (cond : string * Value) : bool :=
  match field (fst cond) doc, snd cond with
  | None, Null => true
  | None, _ => false
  | Some v, w => Value_eqb v w
  end.

Definition matches (filter doc : D) : bool := forallb (holds doc) filter.

End bson.

(** ** The driver's codec on [User]

    The driver encodes the exported fields of a struct and decodes into
    them.  [User] has none: whatever its fields hold, it is stored as the
    empty document (to which the driver adds an [_id], left out here), and a
    stored document decodes to the zero [User], whatever its fields hold. *)

Definition zeroUser : User := {| userID := ""; userToken := ""; role := "" |}.

Definition marshalUser (u : User) : bson.D := [].

Definition decodeUser (d : bson.D) : User := zeroUser.

(** ** The environment: what the collaborators answer *)

Record Env := mkEnv {
  (* crypto/sha256 *)
  Sum256 : string -> string;
  (* gopkg.in/ldap.v2: [true] is [err == nil] *)
  ldapDial : string -> string -> bool;
  ldapBind : string -> string -> bool;
  ldapSearch : ldap.SearchRequest -> option (list ldap.Entry);
  (* time.Now().Unix() when the claims are built, and the JWT library's
     clock when a stored token is parsed *)
  timeNow : Z;
  jwtTimeFunc : Z;
  (* github.com/dgrijalva/jwt-go, HMAC key as second argument.
     [jwtParse now s key] is [None] when [ParseWithClaims] hands back a
     token on which [SignedString] cannot run (a nil token) *)
  jwtSignedString : jwt.Token -> string -> string;
  jwtParse : Z -> string -> string -> option jwt.Token;
  (* github.com/google/uuid *)
  uuidParse : string -> option UUID;
  (* go.mongodb.org/mongo-driver: does the operation report an error *)
  insertOneErr : bool;
  updateOneErr : bool;
  deleteOneErr : bool;
  findErr : bool;
  decodePost : bson.D -> option Post;
  (* a [FindOne] that fails for another reason than "no documents" *)
  findOneErr : bool
}.

(** ** Handlers as state-passing programs

    A handler runs against one collection (the [docs] of its world) and
    leaves a [trace] of the remote operations it performed, oldest first. *)

Inductive Op :=
| OpDial | OpBind | OpSearch
| OpFindOne | OpFind | OpInsertOne | OpUpdateOne | OpDeleteOne.

Record World (Doc : Type) : Type := mkWorld {
  docs : list Doc;
  trace : list Op
}.
Arguments mkWorld {Doc} docs trace.
Arguments docs {Doc} w.
Arguments trace {Doc} w.

Definition Handler (Doc A : Type) : Type := World Doc -> Outcome A * World Doc.

Section HandlerMonad.
Context {Doc : Type}.

Definition ret {A} (a : A) : Handler Doc A := fun w => (Returned a, w).

Definition bind {A B} (m : Handler Doc A) (k : A -> Handler Doc B)
  : Handler Doc B :=
  fun w =>
    match m w with
    | (Returned a, w') => k a w'
    | (Fatal, w') => (Fatal, w')
    | (Panicked, w') => (Panicked, w')
    end.

(** [log.Fatal(err)]: the process exits here. *)
Definition log_Fatal {A} : Handler Doc A := fun w => (Fatal, w).

(** A run-time panic unwinds the handler. *)
Definition panic {A} : Handler Doc A := fun w => (Panicked, w).

(** Record a remote operation in the trace. *)
Definition perform (o : Op) : Handler Doc unit :=
  fun w => (Returned tt, mkWorld (docs w) (trace w ++ [o])).

Definition getDocs : Handler Doc (list Doc) := fun w => (Returned (docs w), w).

Definition putDocs (ds : list Doc) : Handler Doc unit :=
  fun w => (Returned tt, mkWorld ds (trace w)).

End HandlerMonad.

Notation "x <- m ;; k" := (bind m (fun x => k))
  (at level 61, m at next level, right associativity).
Notation "m ;;; k" := (bind m (fun _ => k))
  (at level 61, right associativity).

(** The operations counted by the claims about side effects. *)
Definition isWrite (o : Op) : bool :=
  match o with
  | OpInsertOne | OpUpdateOne | OpDeleteOne => true
  | _ => false
  end.

Definition isDirectoryOp (o : Op) : bool :=
  match o with
  | OpBind | OpSearch => true
  | _ => false
  end.

Definition writes (t : list Op) : list Op := filter isWrite t.
Definition directoryOps (t : list Op) : list Op := filter isDirectoryOp t.

(** ** The collection operations of the MongoDB driver *)

Module mongo.
Section Collection.
Context {Doc : Type} (env : Env).

(** [FindOne(filter).Decode(&x)]: the first document the filter accepts.
    [None] is [err != nil], with x left nil: the lookup failed, or it
    succeeded and accepted no document. *)
Definition FindOne (accepts : Doc -> bool) : Handler Doc (option Doc) :=
  perform OpFindOne ;;;
  if findOneErr env then ret None
  else ds <- getDocs ;; ret (find accepts ds).

(** [InsertOne(doc)]: the result is [err != nil]; a failed insert stores
    nothing. *)
Definition InsertOne (d : Doc) : Handler Doc bool :=
  perform OpInsertOne ;;;
  if insertOneErr env then ret true
  else ds <- getDocs ;; putDocs (ds ++ [d]) ;;; ret false.

Fixpoint updateFirst (accepts : Doc -> bool) (set : Doc -> Doc)
  (ds : list Doc) : list Doc :=
  match ds with
  | [] => []
  | d :: ds' =>
      if accepts d then set d :: ds' else d :: updateFirst accepts set ds'
  end.

(** [UpdateOne(filter, {$set: ...})]: the first accepted document is
    rewritten, none when the filter accepts nothing. *)
Definition UpdateOne (accepts : Doc -> bool) (set : Doc -> Doc)
  : Handler Doc bool :=
  perform OpUpdateOne ;;;
  if updateOneErr env then ret true
  else ds <- getDocs ;; putDocs (updateFirst accepts set ds) ;;; ret false.

Fixpoint deleteFirst (accepts : Doc -> bool) (ds : list Doc) : list Doc :=
  match ds with
  | [] => []
  | d :: ds' => if accepts d then ds' else d :: deleteFirst accepts ds'
  end.

Definition DeleteOne (accepts : Doc -> bool) : Handler Doc bool :=
  perform OpDeleteOne ;;;
  if deleteOneErr env then ret true
  else ds <- getDocs ;; putDocs (deleteFirst accepts ds) ;;; ret false.

(** The documents a cursor yields under a limit: 0 is no limit, and a
    negative limit yields as many as its absolute value. *)
Definition limited (limit : Z) (ds : list Doc) : list Doc :=
  if limit =? 0 then ds else firstn (Z.to_nat (Z.abs limit)) ds.

(** [Find(filter, findOptions)]: [None] is [err != nil], otherwise the
    documents the cursor will yield, in stored order. *)
Definition Find (accepts : Doc -> bool) (limit : Z)
  : Handler Doc (option (list Doc)) :=
  perform OpFind ;;;
  if findErr env then ret None
  else ds <- getDocs ;; ret (Some (limited limit (filter accepts ds))).

End Collection.
End mongo.

(** ** The [$set] update operator on a stored document

    A field that the document has is overwritten in place, a field that it
    does not have is added behind the others. *)
Fixpoint setField (key : string) (v : bson.Value) (doc : bson.D) : bson.D :=
  match doc with
  | [] => [(key, v)]
  | (k, x) :: doc' =>
      if String.eqb k key then (k, v) :: doc' else (k, x) :: setField key v doc'
  end.

Definition applySet (set doc : bson.D) : bson.D :=
  fold_left (fun d kv => setField (fst kv) (snd kv) d) set doc.

(** ** [login] ([server.go], lines 142-233) *)

Section Login.
Variable env : Env.

Definition ldap_Dial (network addr : string) : Handler bson.D bool :=
  perform OpDial ;;; ret (negb (ldapDial env network addr)).

Definition ldap_Bind (username password : string) : Handler bson.D bool :=
  perform OpBind ;;; ret (negb (ldapBind env username password)).

Definition ldap_Search (req : ldap.SearchRequest)
  : Handler bson.D (option (list ldap.Entry)) :=
  perform OpSearch ;;; ret (ldapSearch env req).

Definition jwtKey : string := "secret_text".

Definition loginSearchRequest (username : string) : ldap.SearchRequest :=
  let baseDN := "OU=IDM_People,OU=IDM,DC=ad,DC=unsw,DC=edu,DC=au" in
  let searchScope := ldap.ScopeWholeSubtree in
  let aliases := ldap.NeverDerefAliases in
  let retrieveAttributes := ["givenName"] in
  let searchFilter := "cn=" ++ username in
  ldap.NewSearchRequest baseDN searchScope aliases 0 0 false
    searchFilter retrieveAttributes.

(** The claims of the token issued for [zid] (lines 181-188). *)
Definition loginClaims (zid : string) (userFound : ldap.Entry) : Claims :=
  let expirationTime := timeNow env + 3600 * 24 in
  {| hashedZID := Sum256 env zid;
     firstName := ldap.GetAttributeValue userFound "firstName";
     ExpiresAt := expirationTime |}.

(** The token string issued for [zid] (lines 189-190). *)
Definition issueToken (zid : string) (userFound : ldap.Entry) : string :=
  let tokenJWT :=
    jwt.NewWithClaims jwt.SigningMethodHS256 (loginClaims zid userFound) in
  jwtSignedString env tokenJWT jwtKey.

(** The filter of lines 200 and 216. *)
Definition userFilter (hashedZID : string) : bson.D :=
  [("userID", bson.Str hashedZID)].

(** The [$set] document of lines 217-221. *)
Definition userTokenUpdate (token : string) : bson.D :=
  [("userToken", bson.Str token)].

Definition login (c : Request) : Handler bson.D (Response string) :=
  (* Connect to UNSW LDAP server *)
  err <- ldap_Dial "tcp" "ad.unsw.edu.au" ;;
  if err then log_Fatal else
  (* Attempt to sign in using credentials *)
  let zid := FormValue c "zid" in
  let hashedZID := Sum256 env zid in
  let username := zid ++ "ad.unsw.edu.au" in
  let password := FormValue c "password" in
  err <- ldap_Bind username password ;;
  if err then log_Fatal else
  (* Retrieve first name from Identity Manager *)
  searchResult <- ldap_Search (loginSearchRequest username) ;;
  match searchResult with
  | None => log_Fatal
  | Some Entries =>
      (* Encode user details into a JWT and turn it into a string *)
      match Entries with
      | [] => panic                        (* Entries[0] out of range *)
      | userFound :: _ =>
          let tokenString := issueToken zid userFound in
          let user :=
            {| userID := hashedZID; userToken := tokenString; role := "user" |} in
          (* the error of the lookup is dropped: only isValidUser is read *)
          found <- mongo.FindOne env (bson.matches (userFilter hashedZID)) ;;
          let isValidUser := option_map decodeUser found in
          match isValidUser with
          | None => (* Never logged in before *)
              err <- mongo.InsertOne env (marshalUser user) ;;
              if err then log_Fatal else ret tt
          | Some stored => (* Logged in before - check validity of token *)
              match jwtParse env (jwtTimeFunc env) (userToken stored) jwtKey with
              | None => panic              (* SignedString on a nil token *)
              | Some decodedToken =>
                  let decodedTokenString :=
                    jwtSignedString env decodedToken jwtKey in
                  if negb (jwt.Valid decodedToken) then
                    err <- mongo.UpdateOne env
                             (bson.matches (userFilter hashedZID))
                             (applySet (userTokenUpdate decodedTokenString)) ;;
                    if err then log_Fatal else ret tt
                  else ret tt
              end
          end ;;;
          ret (JSON StatusOK [("token", tokenString)])
      end
  end.

End Login.

(** ** Vocabulary for the statements about [login] *)

(** The connection to the directory could be opened (line 145). *)
Definition directoryReachable (env : Env) : bool :=
  ldapDial env "tcp" "ad.unsw.edu.au".

(** The directory accepted the bind with the request's credentials
    (lines 151-156). *)
Definition credentialsAccepted (env : Env) (c : Request) : bool :=
  ldapBind env (FormValue c "zid" ++ "ad.unsw.edu.au") (FormValue c "password").

(** The directory's answer to the attribute lookup (lines 162-173). *)
Definition directoryAnswer (env : Env) (c : Request)
  : option (list ldap.Entry) :=
  ldapSearch env (loginSearchRequest (FormValue c "zid" ++ "ad.unsw.edu.au")).

(** What the lookup of lines 200-201 hands back: the first stored document
    with the subject's userID, nothing when there is none or when the
    lookup fails. *)
Definition sessionRecord (env : Env) (c : Request) (w : World bson.D)
  : option bson.D :=
  if findOneErr env then None
  else find (bson.matches (userFilter (Sum256 env (FormValue c "zid")))) (docs w).

(** The contract of the JWT library that the round trip of a token rests
    on: a token signed with a key parses under the same key, and is valid
    exactly when its claims are ([StandardClaims.Valid], that is
    [jwt.verifyExp] on its expiry) at the time of the parse. *)
Definition jwt_contract (env : Env) : Prop :=
  forall (claims : Claims) (key : string) (now : Z),
    exists tok,
      jwtParse env now
        (jwtSignedString env (jwt.NewWithClaims jwt.SigningMethodHS256 claims) key)
        key = Some tok
      /\ jwt.Valid tok = jwt.verifyExp (ExpiresAt claims) now.

(** ** [getAllPosts] ([server.go], lines 253-295) *)

Section Posts.
Variable env : Env.

(** The limit handed to [findOptions.SetLimit] (lines 258-263). *)
Definition postsLimit (count : Z) : Z :=
  if negb (count =? 10) then count else 10.

Definition postsFilter (cat : string) : bson.D :=
  if String.eqb cat "" then [("", bson.Null)]   (* bson.D{{}} *)
  else [("post_category", bson.Str cat)].

(** The loop over the cursor (lines 281-289). *)
Fixpoint decodeAll (cur : list bson.D) (posts : list Post)
  : Handler bson.D (list Post) :=
  match cur with
  | [] => ret posts
  | d :: cur' =>
      match decodePost env d with
      | None => log_Fatal
      | Some elem => decodeAll cur' (posts ++ [elem])
      end
  end.

Definition getAllPosts (c : Request) : Handler bson.D (Response (list Post)) :=
  let count := fst (strconv.Atoi (QueryParam c "id")) in
  let cat := QueryParam c "category" in
  let findOptions := postsLimit count in
  cur <- mongo.Find env (bson.matches (postsFilter cat)) findOptions ;;
  match cur with
  | None => log_Fatal
  | Some yielded =>
      posts <- decodeAll yielded [] ;;
      ret (JSON StatusOK [("posts", posts)])
  end.

End Posts.

(** ** [deleteSponsor] ([server.go], lines 475-489)

    The collection is kept as the list of the stored documents that have
    the key "sponsorID", read as records: the filter of the handler accepts
    no other document.  [newSponsor] is left out: it stores a struct
    without exported fields, that is a document without this key. *)

Section Sponsors.
Variable env : Env.

(** [uuid.Must(uuid.Parse(id))]: panics when the parse reports an error. *)
Definition uuid_Must (parsed : option UUID) : Handler Sponsor UUID :=
  match parsed with
  | Some u => ret u
  | None => panic
  end.

Definition hasSponsorID (id : UUID) (s : Sponsor) : bool :=
  String.eqb (sponsorID s) id.

Definition deleteSponsor (c : Request) : Handler Sponsor (Response Empty_set) :=
  let id := FormValue c "id" in
  parsedID <- uuid_Must (uuidParse env id) ;;
  (* Find a sponsor by ID and delete it *)
  err <- mongo.DeleteOne env (hasSponsorID parsedID) ;;
  if err then log_Fatal else ret (JSON StatusOK []).

End Sponsors.

(** ** Go's [strconv.ParseBool] *)

Definition ParseBool (str : string) : bool * bool :=
  if existsb (String.eqb str) ["1"; "t"; "T"; "TRUE"; "true"; "True"]
  then (true, false)
  else if existsb (String.eqb str) ["0"; "f"; "F"; "FALSE"; "false"; "False"]
  then (false, false)
  else (false, true).

(** ** Single posts ([server.go], lines 235-251 and 297-376)

    The encoding of a [Post] and of a [time.Time] into a document is the
    driver's; the handlers are given both. *)

Section PostRecords.
Variable env : Env.
Variable marshalPost : Post -> bson.D.
Variable timeValue : Time -> bson.Value.

Definition getPostFilter (id : Z) (category : string) : bson.D :=
  [("postID", bson.Int id); ("category", bson.Str category)].

(** [FindOne(...).Decode(&result)] reports an error when the lookup fails,
    when no document is accepted and when the accepted one does not
    decode. *)
Definition getPost (c : Request) : Handler bson.D (Response Post) :=
  let id := fst (strconv.Atoi (QueryParam c "id")) in
  let category := QueryParam c "category" in
  (* Search for post by id and category *)
  found <- mongo.FindOne env (bson.matches (getPostFilter id category)) ;;
  match found with
  | None => log_Fatal
  | Some d =>
      match decodePost env d with
      | None => log_Fatal
      | Some result => ret (JSON StatusOK [("post", result)])
      end
  end.

(** Both times of the new post are read from the clock while the struct is
    built. *)
Definition newPost (c : Request) : Handler bson.D (Response Empty_set) :=
  let id := fst (strconv.Atoi (FormValue c "id")) in
  let category := fst (strconv.Atoi (FormValue c "category")) in
  let showinMenu := fst (ParseBool (FormValue c "showInMenu")) in
  let post :=
    {| postID := id;
       postTitle := FormValue c "title";
       postSubtitle := FormValue c "subtitle";
       postType := FormValue c "type";
       postCategory := category;
       createdOn := timeNow env;
       lastEditedOn := timeNow env;
       postContent := FormValue c "content";
       postLinkGithub := FormValue c "linkGithub";
       postLinkFacebook := FormValue c "linkFacebook";
       showInMenu := showinMenu |} in
  err <- mongo.InsertOne env (marshalPost post) ;;
  if err then log_Fatal else ret (JSON StatusOK []).

(** The [$set] document of lines 339-351. *)
Definition updatePostSet (c : Request) : bson.D :=
  let showinMenu := fst (ParseBool (FormValue c "showInMenu")) in
  [ ("postTitle", bson.Str (FormValue c "title"));
    ("postSubtitle", bson.Str (FormValue c "subtitle"));
    ("postType", bson.Str (FormValue c "type"));
    ("postCategory", bson.Str (FormValue c "category"));
    ("lastEditedOn", timeValue (timeNow env));
    ("postContent", bson.Str (FormValue c "content"));
    ("postLinkGithub", bson.Str (FormValue c "linkGithub"));
    ("postLinkFacebook", bson.Str (FormValue c "linkFacebook"));
    ("showinMenu", bson.Boolean showinMenu) ].

Definition updatePost (c : Request) : Handler bson.D (Response Empty_set) :=
  let postID := fst (strconv.Atoi (FormValue c "id")) in
  let filter := [("postID", bson.Int postID)] in
  (* Find a post by id and update it *)
  err <- mongo.UpdateOne env (bson.matches filter) (applySet (updatePostSet c)) ;;
  if err then log_Fatal else ret (JSON StatusOK []).

Definition deletePost (c : Request) : Handler bson.D (Response Empty_set) :=
  let id := fst (strconv.Atoi (FormValue c "id")) in
  let filter := [("postID", bson.Int id)] in
  (* Find a post by id and delete it *)
  err <- mongo.DeleteOne env (bson.matches filter) ;;
  if err then log_Fatal else ret (JSON StatusOK []).

End PostRecords.

(** ** Categories ([server.go], lines 39-44, 378-394 and 415-451)

    The collection is kept as the list of the stored documents that have
    the keys "categoryID", "categoryName" and "index", read as records: the
    filters of the handlers accept no other document.  [newCat] is left
    out: it stores a struct without exported fields, that is a document
    without these keys. *)

Record Category := mkCategory {
  categoryID : Z;
  categoryName : string;
  index : Z
}.

Section Categories.
Variable env : Env.

Definition hasCategoryID (id : Z) (cat : Category) : bool :=
  categoryID cat =? id.

(** [Category] has no exported field: [Decode] leaves the zero struct. *)
Definition zeroCategory : Category :=
  {| categoryID := 0; categoryName := ""; index := 0 |}.

Definition decodeCategory (stored : Category) : Category := zeroCategory.

(** [FindOne(...).Decode(&result)] reports an error when the lookup fails
    and when no category is accepted. *)
Definition getCat (c : Request) : Handler Category (Response Category) :=
  let id := fst (strconv.Atoi (QueryParam c "id")) in
  (* Find a category *)
  found <- mongo.FindOne env (hasCategoryID id) ;;
  match found with
  | None => log_Fatal
  | Some stored => ret (JSON StatusOK [("category", decodeCategory stored)])
  end.

(** The [$set] of lines 421-426 on a category. *)
Definition patchCatSet (name : string) (idx : Z) (cat : Category) : Category :=
  {| categoryID := categoryID cat; categoryName := name; index := idx |}.

Definition patchCat (c : Request) : Handler Category (Response Empty_set) :=
  let id := fst (strconv.Atoi (FormValue c "id")) in
  let categoryName := FormValue c "name" in
  let index := fst (strconv.Atoi (FormValue c "index")) in
  (* Find a category by id and update it *)
  err <- mongo.UpdateOne env (hasCategoryID id) (patchCatSet categoryName index) ;;
  if err then log_Fatal else ret (JSON StatusOK []).

Definition deleteCat (c : Request) : Handler Category (Response Empty_set) :=
  let id := fst (strconv.Atoi (FormValue c "id")) in
  (* Find a category by id and delete it *)
  err <- mongo.DeleteOne env (hasCategoryID id) ;;
  if err then log_Fatal else ret (JSON StatusOK []).

End Categories.

(** ** Vocabulary for the statements about sequences of calls *)

(** The environment with the two clocks advanced to [issued] and
    [checked]. *)
Definition withClocks (env : Env) (issued checked : Z) : Env :=
  mkEnv (Sum256 env) (ldapDial env) (ldapBind env) (ldapSearch env)
    issued checked (jwtSignedString env) (jwtParse env) (uuidParse env)
    (insertOneErr env) (updateOneErr env) (deleteOneErr env) (findErr env)
    (decodePost env) (findOneErr env).

(** The world in which a handler ends. *)
Definition after {Doc A : Type} (h : Handler Doc A) (w : World Doc) : World Doc :=
  snd (h w).

(** The result with which it ends. *)
Definition outcome {Doc A : Type} (h : Handler Doc A) (w : World Doc) : Outcome A :=
  fst (h w).

(** ** A reference environment

    Small executable stand-ins for the collaborators: a dialler that wants
    a port, a directory that knows one person, a token format that keeps
    the expiry, UUIDs in canonical text form, and a store that never
    fails. *)

Module RefEnv.

Definition Sum256 (s : string) : string := "sha256:" ++ s.

(** The one person of the directory. *)
Definition person : ldap.Entry :=
  {| ldap.DN := "CN=z1111111,OU=IDM_People,OU=IDM,DC=ad,DC=unsw,DC=edu,DC=au";
     ldap.Attributes :=
       [ ldap.mkAttribute "cn" ["z1111111ad.unsw.edu.au"];
         ldap.mkAttribute "givenName" ["Alice"];
         ldap.mkAttribute "sn" ["Example"] ] |}.

(** [net.Dial] wants "host:port" and refuses an address without a port
    before it connects anywhere. *)
Fixpoint hasPort (addr : string) : bool :=
  match addr with
  | EmptyString => false
  | String ch rest => Ascii.eqb ch ":" || hasPort rest
  end.

Definition Dial (network addr : string) : bool := hasPort addr.

Definition Bind (username password : string) : bool :=
  String.eqb username "z1111111ad.unsw.edu.au" && String.eqb password "opensesame".

Definition requested (attrs : list string) (a : ldap.EntryAttribute) : bool :=
  existsb (String.eqb (ldap.Name a)) attrs.

(** A search answers with the requested attributes of the matching
    entries. *)
Definition Search (req : ldap.SearchRequest) : option (list ldap.Entry) :=
  if String.eqb (ldap.Filter req) "cn=z1111111ad.unsw.edu.au" then
    Some [ {| ldap.DN := ldap.DN person;
              ldap.Attributes :=
                filter (requested (ldap.ReqAttributes req))
                       (ldap.Attributes person) |} ]
  else Some [].

(** Token strings are [<expiry>.<tag>], the tag binding the expiry to the
    key. *)
Definition encodeExp (z : Z) : string :=
  DecimalString.NilEmpty.string_of_int (Z.to_int z).

Definition decodeExp (s : string) : option Z :=
  option_map Z.of_int (DecimalString.NilEmpty.int_of_string s).

Definition tag (key payload : string) : string := key ++ "/" ++ payload.

Definition SignedString (t : jwt.Token) (key : string) : string :=
  let payload := encodeExp (ExpiresAt (jwt.TokenClaims t)) in
  payload ++ "." ++ tag key payload.

Fixpoint splitDot (s : string) : option (string * string) :=
  match s with
  | EmptyString => None
  | String c rest =>
      if Ascii.eqb c "." then Some (EmptyString, rest)
      else match splitDot rest with
           | Some (a, b) => Some (String c a, b)
           | None => None
           end
  end.

Definition parsed (exp : Z) (valid : bool) : jwt.Token :=
  {| jwt.Method := jwt.SigningMethodHS256;
     jwt.Header := [("typ", "JWT"); ("alg", jwt.SigningMethodHS256)];
     jwt.TokenClaims := {| hashedZID := ""; firstName := ""; ExpiresAt := exp |};
     jwt.Valid := valid |}.

Definition Parse (now : Z) (tokenString key : string) : option jwt.Token :=
  match splitDot tokenString with
  | None => None
  | Some (payload, signature) =>
      match decodeExp payload with
      | None => Some (parsed 0 false)
      | Some exp =>
          Some (parsed exp (String.eqb signature (tag key payload)
                            && jwt.verifyExp exp now))
      end
  end.

Definition isHex (c : ascii) : bool :=
  let n := nat_of_ascii c in
  ((48 <=? n) && (n <=? 57) || (65 <=? n) && (n <=? 70)
   || (97 <=? n) && (n <=? 102))%nat.

Fixpoint canonical (s : string) (i : nat) : bool :=
  match s with
  | EmptyString => (i =? 36)%nat
  | String c rest =>
      (if ((i =? 8) || (i =? 13) || (i =? 18) || (i =? 23))%nat
       then Ascii.eqb c "-" else isHex c)
      && canonical rest (S i)
  end.

Definition uuidParse (s : string) : option UUID :=
  if canonical s 0 then Some s else None.

Definition decoded (n : Z) : Post := mkPost n "" "" "" 0 0 0 "" "" "" false.

Definition decodePost (d : bson.D) : option Post :=
  match bson.field "postID" d with
  | Some (bson.Int n) => Some (decoded n)
  | _ => Some (decoded 0)
  end.

(** The environment whose two clocks read [issued] and [checked]. *)
Definition at_times (issued checked : Z) : Env :=
  mkEnv Sum256 Dial Bind Search issued checked SignedString Parse uuidParse
        false false false false decodePost false.

Definition env : Env := at_times 1600000000 1600000000.

(** The same with a dialler that connects to the address as it is written
    at line 145, without a port.  [net.Dial] does not: no run of the
    program has this environment, which is there to exercise the code
    behind the dial. *)
Definition listening (issued checked : Z) : Env :=
  mkEnv Sum256 (fun _ _ => true) Bind Search issued checked SignedString Parse
        uuidParse false false false false decodePost false.

Definition goodLogin : Request :=
  {| query := []; form := [("zid", "z1111111"); ("password", "opensesame")] |}.

Definition badLogin : Request :=
  {| query := []; form := [("zid", "z1111111"); ("password", "guess")] |}.

Definition emptyStore {Doc} : World Doc := mkWorld [] [].

(** A users collection that holds a Session Record of the subject of
    [goodLogin], with a token that expires at 1600086400. *)
Definition sessionDocument : bson.D :=
  [ ("userID", bson.Str "sha256:z1111111");
    ("userToken", bson.Str "1600086400.secret_text/1600086400");
    ("role", bson.Str "user") ].

Definition loggedInOnce : World bson.D := mkWorld [sessionDocument] [].

(** A day and more later. *)
Definition later : Env := at_times 1700000000 1700000000.

Definition post (n : Z) : bson.D :=
  [("postID", bson.Int n); ("post_category", bson.Str "news")].

(** Twelve stored posts. *)
Definition twelvePosts : World bson.D :=
  mkWorld (map post [1; 2; 3; 4; 5; 6; 7; 8; 9; 10; 11; 12]) [].

Definition listPosts (id : string) : Request :=
  {| query := [("id", id)]; form := [] |}.

Definition listAllPosts : Request := {| query := []; form := [] |}.

Definition deleteRequest (id : string) : Request :=
  {| query := []; form := [("id", id)] |}.

End RefEnv.

(** ** Stores and requests to run the handlers on *)

Module Fixtures.

Definition categories : World Category :=
  mkWorld [mkCategory 1 "News" 0; mkCategory 2 "Events" 1] [].

(** A request carrying the same fields as query and as form parameters. *)
Definition request (fields : list (string * string)) : Request :=
  {| query := fields; form := fields |}.

Definition marshalPost (p : Post) : bson.D :=
  [ ("postID", bson.Int (postID p));
    ("postTitle", bson.Str (postTitle p));
    ("postCategory", bson.Int (postCategory p));
    ("createdOn", bson.Int (createdOn p));
    ("showInMenu", bson.Boolean (showInMenu p)) ].

Definition timeValue (t : Time) : bson.Value := bson.Int t.

Definition posts : World bson.D :=
  mkWorld
    [ [("postID", bson.Int 1); ("category", bson.Str "news");
       ("post_category", bson.Str "news"); ("postCategory", bson.Int 3);
       ("createdOn", bson.Int 1500000000); ("showInMenu", bson.Boolean true)];
      [("postID", bson.Int 2); ("postTitle", bson.Str "Welcome")] ]
    [].

Definition sponsorText : string := "123e4567-e89b-12d3-a456-426614174000".

Definition sponsors : World Sponsor :=
  mkWorld
    [mkSponsor "00000000-0000-0000-0000-000000000001" "Acme" "acme.png" "gold"
       1609459200]
    [].

End Fixtures.

(** * Properties *)

(** ** The paths through [login] *)

Ltac run_handler :=
  cbv beta delta [login ldap_Dial ldap_Bind ldap_Search mongo.FindOne
    mongo.InsertOne mongo.UpdateOne mongo.DeleteOne mongo.Find
    bind ret perform log_Fatal panic getDocs putDocs] iota;
  cbn [docs trace].

Ltac step_trace := cbn [negb docs trace]; rewrite <- ?app_assoc; cbn [app].

Section LoginPaths.
Variables (env : Env) (c : Request) (w : World bson.D).

Local Abbreviation zid := (FormValue c "zid").
Local Abbreviation ran ops ds := (mkWorld ds (trace w ++ ops)).
Local Abbreviation token userFound :=
  (JSON StatusOK [("token", issueToken env zid userFound)]).

(** [login] as one decision tree over the collaborators' answers. *)
Lemma login_paths :
  login env c w =
  if negb (directoryReachable env) then (Fatal, ran [OpDial] (docs w))
  else if negb (credentialsAccepted env c) then
    (Fatal, ran [OpDial; OpBind] (docs w))
  else
    match directoryAnswer env c with
    | None => (Fatal, ran [OpDial; OpBind; OpSearch] (docs w))
    | Some [] => (Panicked, ran [OpDial; OpBind; OpSearch] (docs w))
    | Some (userFound :: _) =>
        match sessionRecord env c w with
        | None =>
            if insertOneErr env then
              (Fatal,
               ran [OpDial; OpBind; OpSearch; OpFindOne; OpInsertOne] (docs w))
            else
              (Returned (token userFound),
               ran [OpDial; OpBind; OpSearch; OpFindOne; OpInsertOne]
                 (docs w ++ [[]]))
        | Some found =>
            match jwtParse env (jwtTimeFunc env)
                    (userToken (decodeUser found)) jwtKey with
            | None =>
                (Panicked, ran [OpDial; OpBind; OpSearch; OpFindOne] (docs w))
            | Some decodedToken =>
                if negb (jwt.Valid decodedToken) then
                  if updateOneErr env then
                    (Fatal,
                     ran [OpDial; OpBind; OpSearch; OpFindOne; OpUpdateOne]
                       (docs w))
                  else
                    (Returned (token userFound),
                     ran [OpDial; OpBind; OpSearch; OpFindOne; OpUpdateOne]
                       (mongo.updateFirst
                          (bson.matches (userFilter (Sum256 env zid)))
                          (applySet
                             (userTokenUpdate
                                (jwtSignedString env decodedToken jwtKey)))
                          (docs w)))
                else
                  (Returned (token userFound),
                   ran [OpDial; OpBind; OpSearch; OpFindOne] (docs w))
            end
        end
    end.
Proof.
  unfold directoryReachable, credentialsAccepted, directoryAnswer,
    sessionRecord.
  run_handler.
  destruct (ldapDial env _ _); step_trace; [|reflexivity].
  destruct (ldapBind env _ _); step_trace; [|reflexivity].
  destruct (ldapSearch env _) as [[|userFound rest]|]; step_trace;
    try reflexivity.
  destruct (findOneErr env); step_trace.
  - cbn [option_map]. destruct (insertOneErr env); step_trace; reflexivity.
  - destruct (find _ (docs w)) as [found|]; cbn [option_map]; step_trace.
    + destruct (jwtParse env _ _ _) as [tok|]; step_trace; [|reflexivity].
      destruct (jwt.Valid tok); step_trace; [reflexivity|].
      destruct (updateOneErr env); step_trace; reflexivity.
    + destruct (insertOneErr env); step_trace; reflexivity.
Qed.

End LoginPaths.

(** ** Rejected logins *)

(** C1, as the code has it: when the directory cannot be reached, refuses
    the credentials or fails the lookup, [login] stops in [log.Fatal] (the
    process exits and no response is written); it has not touched the
    Session Store: the records are as they were and the only operations
    performed are the dial, the bind and the search. *)
Theorem login_rejected_is_fatal (env : Env) (c : Request) (w : World bson.D) :
  directoryReachable env = false
  \/ credentialsAccepted env c = false
  \/ directoryAnswer env c = None ->
  exists ops,
    login env c w = (Fatal, mkWorld (docs w) (trace w ++ ops))
    /\ writes ops = []
    /\ (ops = [OpDial] \/ ops = [OpDial; OpBind]
        \/ ops = [OpDial; OpBind; OpSearch]).
Proof.
  intros Hrej. rewrite login_paths.
  destruct (directoryReachable env) eqn:Hdial; cbn [negb];
    [|exists [OpDial]; repeat split; now left].
  destruct (credentialsAccepted env c) eqn:Hbind; cbn [negb];
    [|exists [OpDial; OpBind]; repeat split; right; now left].
  destruct Hrej as [Hrej | [Hrej | Hrej]]; try discriminate.
  rewrite Hrej. exists [OpDial; OpBind; OpSearch]. repeat split.
  right. now right.
Qed.

Lemma login_rejected_is_fatal_witness :
  credentialsAccepted RefEnv.env RefEnv.badLogin = false
  /\ exists ops,
       login RefEnv.env RefEnv.badLogin RefEnv.emptyStore
       = (Fatal, mkWorld [] ([] ++ ops))
       /\ writes ops = []
       /\ (ops = [OpDial] \/ ops = [OpDial; OpBind]
           \/ ops = [OpDial; OpBind; OpSearch]).
Proof.
  split; [reflexivity|].
  apply (login_rejected_is_fatal RefEnv.env RefEnv.badLogin RefEnv.emptyStore).
  right. left. reflexivity.
Defined.

(** C1, as stated, fails: with a wrong password the caller gets no response
    at all, the handler ends in [log.Fatal] (at the dial already, the
    address of line 145 having no port). *)
Lemma login_bad_password_no_response :
  credentialsAccepted RefEnv.env RefEnv.badLogin = false
  /\ login RefEnv.env RefEnv.badLogin RefEnv.emptyStore
     = (Fatal, mkWorld [] [OpDial])
  /\ ~ (exists r w',
          login RefEnv.env RefEnv.badLogin RefEnv.emptyStore = (Returned r, w')).
Proof.
  split; [reflexivity|]. split; [reflexivity|].
  intros [r [w' Hr]]. vm_compute in Hr. discriminate Hr.
Qed.

(** Behind a dialler that connects, the wrong password ends the call at the
    bind. *)
Lemma login_bad_password_at_the_bind :
  login (RefEnv.listening 1600000000 1600000000) RefEnv.badLogin
    RefEnv.emptyStore
  = (Fatal, mkWorld [] [OpDial; OpBind]).
Proof. reflexivity. Qed.

(** ** Accepted logins *)

Section AcceptedLogin.
Variables (env : Env) (c : Request) (w : World bson.D).
Variables (userFound : ldap.Entry) (others : list ldap.Entry).
Hypothesis reachable : directoryReachable env = true.
Hypothesis accepted : credentialsAccepted env c = true.
Hypothesis answered : directoryAnswer env c = Some (userFound :: others).

Local Abbreviation zid := (FormValue c "zid").
Local Abbreviation fresh := (issueToken env zid userFound).

(** When the lookup hands nothing back, what is stored is the encoding of
    [User]: the empty document, behind the documents already there. *)
Lemma login_first_time_inserts :
  sessionRecord env c w = None ->
  insertOneErr env = false ->
  login env c w
  = (Returned (JSON StatusOK [("token", fresh)]),
     mkWorld (docs w ++ [[]])
       (trace w ++ [OpDial; OpBind; OpSearch; OpFindOne; OpInsertOne])).
Proof.
  intros Habsent Hins.
  now rewrite login_paths, reachable, accepted, answered, Habsent, Hins.
Qed.

(** What the update of line 222 writes when the decoded token does not
    verify: that token signed again, not the fresh one. *)
Lemma login_refresh_stores_resigned (found : bson.D) (decodedToken : jwt.Token) :
  sessionRecord env c w = Some found ->
  jwtParse env (jwtTimeFunc env) "" jwtKey = Some decodedToken ->
  jwt.Valid decodedToken = false ->
  updateOneErr env = false ->
  login env c w
  = (Returned (JSON StatusOK [("token", fresh)]),
     mkWorld
       (mongo.updateFirst (bson.matches (userFilter (Sum256 env zid)))
          (applySet (userTokenUpdate (jwtSignedString env decodedToken jwtKey)))
          (docs w))
       (trace w ++ [OpDial; OpBind; OpSearch; OpFindOne; OpUpdateOne])).
Proof.
  intros Hrec Hparse Hinvalid Hupd.
  rewrite login_paths, reachable, accepted, answered, Hrec.
  cbn [negb decodeUser zeroUser userToken].
  now rewrite Hparse, Hinvalid, Hupd.
Qed.

End AcceptedLogin.

(** C4 at a concrete login: the users collection holds a Session Record of
    the subject whose token verifies at the time of the call, and the
    credentials are the right ones.  No token is returned: the call ends in
    [log.Fatal] at the dial, the address of line 145 having no port; the
    collection is as it was. *)
Theorem login_valid_session_exits_at_dial :
  find (bson.matches (userFilter (Sum256 RefEnv.env "z1111111")))
    (docs RefEnv.loggedInOnce)
  = Some RefEnv.sessionDocument
  /\ bson.field "userToken" RefEnv.sessionDocument
     = Some (bson.Str "1600086400.secret_text/1600086400")
  /\ option_map jwt.Valid
       (jwtParse RefEnv.env (jwtTimeFunc RefEnv.env)
          "1600086400.secret_text/1600086400" jwtKey)
     = Some true
  /\ directoryReachable RefEnv.env = false
  /\ login RefEnv.env RefEnv.goodLogin RefEnv.loggedInOnce
     = (Fatal, mkWorld [RefEnv.sessionDocument] [OpDial]).
Proof. repeat split; vm_compute; reflexivity. Qed.

(** C5: whenever [login] returns a response, its body is the object whose
    "token" is the token issued in this call for the first entry of the
    directory's answer, with status 200, whichever way the Session Store was
    handled. *)
Theorem login_returns_fresh_token
  (env : Env) (c : Request) (w w' : World bson.D) (r : Response string) :
  login env c w = (Returned r, w') ->
  exists userFound others,
    directoryAnswer env c = Some (userFound :: others)
    /\ r = JSON StatusOK
             [("token", issueToken env (FormValue c "zid") userFound)].
Proof.
  rewrite login_paths.
  destruct (directoryReachable env); cbn [negb]; [|discriminate].
  destruct (credentialsAccepted env c); cbn [negb]; [|discriminate].
  destruct (directoryAnswer env c) as [[|userFound others]|]; try discriminate.
  intros Hrun. exists userFound, others. split; [reflexivity|].
  destruct (sessionRecord env c w) as [found|].
  - destruct (jwtParse env _ _ _) as [tok|]; [|discriminate].
    destruct (jwt.Valid tok); cbn [negb] in Hrun.
    + now inversion Hrun.
    + destruct (updateOneErr env); [discriminate|now inversion Hrun].
  - destruct (insertOneErr env); [discriminate|now inversion Hrun].
Qed.

Lemma login_returns_fresh_token_witness :
  exists userFound others,
    directoryAnswer (RefEnv.listening 1600000000 1600000000) RefEnv.goodLogin
    = Some (userFound :: others)
    /\ JSON StatusOK [("token", "1600086400.secret_text/1600086400")]
       = JSON StatusOK
           [("token", issueToken (RefEnv.listening 1600000000 1600000000)
                        (FormValue RefEnv.goodLogin "zid") userFound)].
Proof.
  apply (login_returns_fresh_token (RefEnv.listening 1600000000 1600000000)
           RefEnv.goodLogin RefEnv.emptyStore
           (mkWorld [[]] [OpDial; OpBind; OpSearch; OpFindOne; OpInsertOne])).
  reflexivity.
Defined.

(** ** The refresh of an expired session *)

(** C2 at a concrete login: the users collection holds a Session Record of
    the subject whose token expired more than a day ago, and the
    credentials are the right ones.  The record is not refreshed and no
    token is returned: the call ends in [log.Fatal] at the dial, the address
    of line 145 having no port. *)
Theorem login_expired_session_exits_at_dial :
  find (bson.matches (userFilter (Sum256 RefEnv.later "z1111111")))
    (docs RefEnv.loggedInOnce)
  = Some RefEnv.sessionDocument
  /\ option_map jwt.Valid
       (jwtParse RefEnv.later (jwtTimeFunc RefEnv.later)
          "1600086400.secret_text/1600086400" jwtKey)
     = Some false
  /\ directoryReachable RefEnv.later = false
  /\ login RefEnv.later RefEnv.goodLogin RefEnv.loggedInOnce
     = (Fatal, mkWorld [RefEnv.sessionDocument] [OpDial]).
Proof. repeat split; vm_compute; reflexivity. Qed.

(** The document that the update of line 222 writes into does not depend on
    the token issued in this call: what it stores under "userToken" is made
    from the decoded token alone. *)
Lemma userTokenUpdate_stored (token : string) (d : bson.D) :
  bson.field "userToken" (applySet (userTokenUpdate token) d)
  = Some (bson.Str token).
Proof.
  unfold applySet, userTokenUpdate. cbn [fold_left fst snd].
  induction d as [|[k x] d IH]; cbn.
  - reflexivity.
  - destruct (String.eqb k "userToken") eqn:Hk; cbn; rewrite Hk;
      [reflexivity|exact IH].
Qed.

(** ** The claims of the issued token *)

(** An entry that carries no attribute called "firstName" gives the token
    an empty first name. *)
Lemma loginClaims_firstName_empty (env : Env) (zid : string) (e : ldap.Entry) :
  (forall a, In a (ldap.Attributes e) -> ldap.Name a <> "firstName") ->
  firstName (loginClaims env zid e) = "".
Proof.
  unfold loginClaims, ldap.GetAttributeValue. cbn [firstName].
  destruct e as [dn attrs]. cbn [ldap.Attributes].
  induction attrs as [|a attrs IH]; intros Hnames; [reflexivity|].
  cbn [ldap.GetAttributeValues].
  destruct (String.eqb_spec (ldap.Name a) "firstName") as [Heq|_].
  - exfalso. apply (Hnames a); [now left|exact Heq].
  - apply IH. intros b Hb. apply Hnames. now right.
Qed.

Lemma loginClaims_hashedZID (env : Env) (zid : string) (e : ldap.Entry) :
  hashedZID (loginClaims env zid e) = Sum256 env zid.
Proof. reflexivity. Qed.

(** C3 at a concrete first login: the users collection is empty, the
    credentials are the right ones and the directory holds "Alice" as the
    given name.  No record is inserted and no token is returned: the call
    ends in [log.Fatal] at the dial, the address of line 145 having no
    port.  The claims that line 184 would build from the directory's answer
    read the attribute "firstName", which the answer to a search for
    "givenName" does not carry: their first name is empty. *)
Theorem login_first_login_exits_at_dial :
  credentialsAccepted RefEnv.env RefEnv.goodLogin = true
  /\ docs (@RefEnv.emptyStore bson.D) = []
  /\ directoryReachable RefEnv.env = false
  /\ login RefEnv.env RefEnv.goodLogin RefEnv.emptyStore
     = (Fatal, mkWorld [] [OpDial])
  /\ exists userFound,
       directoryAnswer RefEnv.env RefEnv.goodLogin = Some [userFound]
       /\ ldap.GetAttributeValue userFound "givenName" = "Alice"
       /\ firstName (loginClaims RefEnv.env "z1111111" userFound) = "".
Proof.
  repeat (split; [reflexivity|]). eexists. repeat split.
Qed.

(** ** Side effects of one call *)




(** Nor is it a matter of the dial alone: behind a dialler that connects, a
    refused bind ends the call after one directory operation. *)
Lemma login_refused_bind_one_directory_op (env : Env) (c : Request) (w : World bson.D) :
  directoryReachable env = true ->
  credentialsAccepted env c = false ->
  directoryOps (trace (snd (login env c (mkWorld (docs w) [])))) = [OpBind].
Proof.
  intros Hdial Hbind. now rewrite login_paths, Hdial, Hbind.
Qed.

(** ** The round trip of an issued token *)

Module RefEnvFacts.

Lemma splitDot_uint (d : Decimal.uint) (rest : string) :
  RefEnv.splitDot (NilEmpty.string_of_uint d ++ String "." rest)
  = Some (NilEmpty.string_of_uint d, rest).
Proof.
  induction d as [|d IH|d IH|d IH|d IH|d IH|d IH|d IH|d IH|d IH|d IH];
    cbn; rewrite ?IH; reflexivity.
Qed.

Lemma splitDot_encodeExp (z : Z) (rest : string) :
  RefEnv.splitDot (RefEnv.encodeExp z ++ String "." rest)
  = Some (RefEnv.encodeExp z, rest).
Proof.
  unfold RefEnv.encodeExp.
  destruct (Z.to_int z) as [d|d]; cbn [NilEmpty.string_of_int].
  - apply splitDot_uint.
  - cbn. now rewrite splitDot_uint.
Qed.

Lemma decodeExp_encodeExp (z : Z) :
  RefEnv.decodeExp (RefEnv.encodeExp z) = Some z.
Proof.
  unfold RefEnv.decodeExp, RefEnv.encodeExp.
  rewrite NilEmpty.isi. cbn [option_map]. now rewrite DecimalZ.of_to.
Qed.

(** The reference token format parses what it signed, and the parsed token
    is valid as long as its expiry allows. *)
Lemma Parse_SignedString (t : jwt.Token) (key : string) (now : Z) :
  RefEnv.Parse now (RefEnv.SignedString t key) key
  = Some (RefEnv.parsed (ExpiresAt (jwt.TokenClaims t))
            (jwt.verifyExp (ExpiresAt (jwt.TokenClaims t)) now)).
Proof.
  unfold RefEnv.Parse, RefEnv.SignedString.
  change ("." ++ ?s) with (String "." s).
  rewrite splitDot_encodeExp, decodeExp_encodeExp, String.eqb_refl.
  reflexivity.
Qed.

Lemma contract (issued checked : Z) :
  jwt_contract (RefEnv.at_times issued checked).
Proof.
  intros claims key now. cbn [RefEnv.at_times jwtParse jwtSignedString].
  rewrite Parse_SignedString. eexists. split; reflexivity.
Qed.

Lemma contract_listening (issued checked : Z) :
  jwt_contract (RefEnv.listening issued checked).
Proof.
  intros claims key now. cbn [RefEnv.listening jwtParse jwtSignedString].
  rewrite Parse_SignedString. eexists. split; reflexivity.
Qed.

End RefEnvFacts.

(** The second in which a token expires is still a second of validity. *)
Lemma verifyExp_at_expiry (exp : Z) : jwt.verifyExp exp exp = true.
Proof. unfold jwt.verifyExp. destruct (exp =? 0); [reflexivity|]. apply Z.leb_refl. Qed.

(** C6, as the code and the library have it: under the contract of the JWT
    library, the token that [login] issues at clock reading [timeNow] (no
    earlier than the epoch) expires at [timeNow] plus 24 hours in seconds;
    it parses as valid at every reading up to and including its expiry, so
    at the reading of its issue, and as invalid at every later reading;
    this holds for every identifier and every directory entry. *)
Theorem issue_verify_roundtrip (env : Env) (zid : string) (userFound : ldap.Entry) :
  jwt_contract env ->
  0 <= timeNow env ->
  ExpiresAt (loginClaims env zid userFound) = timeNow env + 86400
  /\ (exists tok,
        jwtParse env (timeNow env) (issueToken env zid userFound) jwtKey
        = Some tok
        /\ jwt.Valid tok = true)
  /\ (forall now, now <= timeNow env + 86400 ->
        exists tok,
          jwtParse env now (issueToken env zid userFound) jwtKey = Some tok
          /\ jwt.Valid tok = true)
  /\ (forall now, timeNow env + 86400 < now ->
        exists tok,
          jwtParse env now (issueToken env zid userFound) jwtKey = Some tok
          /\ jwt.Valid tok = false).
Proof.
  intros Hjwt Hclock. split; [reflexivity|].
  assert (Hvalid : forall now, now <= timeNow env + 86400 ->
            exists tok,
              jwtParse env now (issueToken env zid userFound) jwtKey = Some tok
              /\ jwt.Valid tok = true).
  { intros now Hnow.
    destruct (Hjwt (loginClaims env zid userFound) jwtKey now)
      as [tok [Hparse Hvalid]].
    exists tok. split; [exact Hparse|]. rewrite Hvalid.
    unfold jwt.verifyExp, loginClaims. cbn [ExpiresAt].
    destruct (_ =? 0); [reflexivity|]. apply Z.leb_le. lia. }
  split; [apply Hvalid; lia|]. split; [exact Hvalid|].
  intros now Hlater.
  destruct (Hjwt (loginClaims env zid userFound) jwtKey now)
    as [tok [Hparse Hinvalid]].
  exists tok. split; [exact Hparse|]. rewrite Hinvalid.
  unfold jwt.verifyExp, loginClaims. cbn [ExpiresAt].
  destruct (Z.eqb_spec (timeNow env + 3600 * 24) 0) as [Hzero|_]; [lia|].
  apply Z.leb_gt. lia.
Qed.

Lemma issue_verify_roundtrip_witness :
  ExpiresAt (loginClaims RefEnv.env "z1111111" RefEnv.person)
  = timeNow RefEnv.env + 86400
  /\ (exists tok,
        jwtParse RefEnv.env (timeNow RefEnv.env)
          (issueToken RefEnv.env "z1111111" RefEnv.person) jwtKey
        = Some tok
        /\ jwt.Valid tok = true)
  /\ (forall now, now <= timeNow RefEnv.env + 86400 ->
        exists tok,
          jwtParse RefEnv.env now
            (issueToken RefEnv.env "z1111111" RefEnv.person) jwtKey
          = Some tok
          /\ jwt.Valid tok = true)
  /\ (forall now, timeNow RefEnv.env + 86400 < now ->
        exists tok,
          jwtParse RefEnv.env now
            (issueToken RefEnv.env "z1111111" RefEnv.person) jwtKey
          = Some tok
          /\ jwt.Valid tok = false).
Proof.
  apply (issue_verify_roundtrip RefEnv.env "z1111111" RefEnv.person).
  - apply RefEnvFacts.contract.
  - vm_compute. discriminate.
Defined.

(** C6, as stated, fails: when the ttl has just elapsed, at the reading
    [timeNow + 86400], the token is still valid.  There is an environment
    that keeps the contract of the library, and a token issued in it, for
    which "invalid from the expiry on" does not hold. *)
Lemma issued_token_valid_when_ttl_elapsed :
  ~ (forall (env : Env) (zid : string) (userFound : ldap.Entry),
       jwt_contract env ->
       0 <= timeNow env ->
       forall now, timeNow env + 86400 <= now ->
         exists tok,
           jwtParse env now (issueToken env zid userFound) jwtKey = Some tok
           /\ jwt.Valid tok = false).
Proof.
  intros Hclaim.
  destruct (Hclaim RefEnv.env "z1111111" RefEnv.person
              (RefEnvFacts.contract _ _) ltac:(vm_compute; discriminate)
              (timeNow RefEnv.env + 86400) (Z.le_refl _))
    as [tok [Hparse Hvalid]].
  vm_compute in Hparse. inversion Hparse; subst. discriminate Hvalid.
Qed.

(** ** Listing posts *)

Lemma lookupParam_absent (name : string) (ps : list (string * string)) :
  (forall v, ~ In (name, v) ps) -> lookupParam name ps = "".
Proof.
  induction ps as [|[k v] ps IH]; intros Habsent; [reflexivity|].
  cbn [lookupParam]. destruct (String.eqb_spec k name) as [->|_].
  - exfalso. apply (Habsent v). now left.
  - apply IH. intros v' Hin. apply (Habsent v'). now right.
Qed.

Lemma Atoi_not_numeric (s : string) :
  strconv.numeric s = false -> strconv.Atoi s = (0, true).
Proof.
  unfold strconv.numeric, strconv.Atoi.
  destruct (strconv.unsignedPart s); [reflexivity|].
  destruct (strconv.parseDigits _ 0); [discriminate|reflexivity].
Qed.

(** The limit of lines 259-263 is the count itself, whatever it is. *)
Lemma postsLimit_is_count (count : Z) : postsLimit count = count.
Proof.
  unfold postsLimit. destruct (Z.eqb_spec count 10) as [->|_]; reflexivity.
Qed.

(** The loop over the cursor touches nothing and decodes every document it
    is given, in order. *)
Lemma decodeAll_returned (env : Env) (cur : list bson.D) :
  forall (acc posts : list Post) (w w' : World bson.D),
    decodeAll env cur acc w = (Returned posts, w') ->
    w' = w
    /\ map Some posts = (map Some acc ++ map (decodePost env) cur)%list.
Proof.
  induction cur as [|d cur IH]; intros acc posts w w' Hrun; cbn in Hrun.
  - inversion Hrun; subst. now rewrite app_nil_r.
  - destruct (decodePost env d) as [elem|] eqn:Hd; [|discriminate].
    apply IH in Hrun. destruct Hrun as [-> Hposts]. split; [reflexivity|].
    rewrite Hposts, map_app, <- app_assoc. cbn. now rewrite Hd.
Qed.

Lemma decodeAll_decodable (env : Env) (cur : list bson.D) :
  forall (acc : list Post) (w : World bson.D),
    Forall (fun d => decodePost env d <> None) cur ->
    exists posts, decodeAll env cur acc w = (Returned posts, w).
Proof.
  induction cur as [|d cur IH]; intros acc w Hall; cbn.
  - now exists acc.
  - inversion Hall as [|? ? Hd Hrest]; subst.
    destruct (decodePost env d) as [elem|]; [|contradiction].
    now apply IH.
Qed.

(** What a returned listing holds: the posts decoded from the accepted
    documents, cut by the limit. *)
Lemma getAllPosts_returned
  (env : Env) (c : Request) (w w' : World bson.D) (r : Response (list Post)) :
  getAllPosts env c w = (Returned r, w') ->
  exists posts,
    r = JSON StatusOK [("posts", posts)]
    /\ map Some posts
       = map (decodePost env)
           (mongo.limited (postsLimit (fst (strconv.Atoi (QueryParam c "id"))))
              (filter (bson.matches (postsFilter (QueryParam c "category")))
                 (docs w))).
Proof.
  unfold getAllPosts. run_handler.
  destruct (findErr env); [discriminate|].
  destruct (decodeAll env _ [] _) as [[posts| |] w1] eqn:Hdec; try discriminate.
  intros Hrun. inversion Hrun; subst. exists posts. split; [reflexivity|].
  apply decodeAll_returned in Hdec. now destruct Hdec as [_ ->].
Qed.

Lemma firstn_incl {A : Type} (n : nat) :
  forall (l : list A) (x : A), In x (firstn n l) -> In x l.
Proof.
  induction n as [|n IH]; intros [|a l] x Hin; cbn in Hin; try contradiction.
  destruct Hin as [->|Hin]; [now left|right; now apply IH].
Qed.

(** A listing is returned whenever the store answers and its documents
    decode. *)
Lemma getAllPosts_returns (env : Env) (c : Request) (w : World bson.D) :
  findErr env = false ->
  Forall (fun d => decodePost env d <> None) (docs w) ->
  exists r, getAllPosts env c w = (Returned r, mkWorld (docs w) (trace w ++ [OpFind])).
Proof.
  intros Hfind Hall. unfold getAllPosts. run_handler. rewrite Hfind.
  edestruct (decodeAll_decodable env) as [posts Hposts]; [|rewrite Hposts; eauto].
  unfold mongo.limited.
  assert (Hfilter : Forall (fun d => decodePost env d <> None)
                      (filter (bson.matches (postsFilter (QueryParam c "category")))
                         (docs w))).
  { apply Forall_forall. intros d Hd. apply filter_In in Hd.
    rewrite Forall_forall in Hall. now apply Hall. }
  destruct (_ =? 0); [exact Hfilter|].
  apply Forall_forall. intros d Hd. rewrite Forall_forall in Hfilter.
  apply Hfilter. eapply firstn_incl; eassumption.
Qed.

(** C7: a returned listing holds the posts decoded from the accepted
    documents under the limit "the count when it differs from 10, and 10
    otherwise", the count being what [Atoi] makes of the id parameter; with
    id=5 that is at most 5 posts. *)
Theorem getAllPosts_limit_is_count
  (env : Env) (c : Request) (w w' : World bson.D) (r : Response (list Post)) :
  getAllPosts env c w = (Returned r, w') ->
  let count := fst (strconv.Atoi (QueryParam c "id")) in
  let limit := if count =? 10 then 10 else count in
  exists posts,
    r = JSON StatusOK [("posts", posts)]
    /\ map Some posts
       = map (decodePost env)
           (mongo.limited limit
              (filter (bson.matches (postsFilter (QueryParam c "category")))
                 (docs w)))
    /\ (QueryParam c "id" = "5" -> (List.length posts <= 5)%nat).
Proof.
  intros Hrun count limit.
  destruct (getAllPosts_returned env c w w' r Hrun) as [posts [Hr Hposts]].
  exists posts. split; [exact Hr|].
  assert (Hlimit : postsLimit count = limit).
  { unfold postsLimit, limit. now destruct (count =? 10). }
  fold count in Hposts. rewrite Hlimit in Hposts. split; [exact Hposts|].
  intros Hfive.
  assert (Hlen : List.length (map Some posts)
                 = List.length (map (decodePost env)
                             (mongo.limited limit
                                (filter (bson.matches
                                           (postsFilter (QueryParam c "category")))
                                   (docs w)))))
    by now rewrite Hposts.
  rewrite !length_map in Hlen. rewrite Hlen.
  unfold limit, count. rewrite Hfive. cbn.
  apply (firstn_le_length 5).
Qed.

Lemma getAllPosts_limit_is_count_witness :
  exists posts,
    JSON StatusOK [("posts", map RefEnv.decoded [1; 2; 3; 4; 5])]
    = JSON StatusOK [("posts", posts)]
    /\ map Some posts
       = map (decodePost RefEnv.env)
           (mongo.limited 5
              (filter (bson.matches (postsFilter ""))
                 (docs RefEnv.twelvePosts)))
    /\ (QueryParam (RefEnv.listPosts "5") "id" = "5" -> (List.length posts <= 5)%nat).
Proof.
  apply (getAllPosts_limit_is_count RefEnv.env (RefEnv.listPosts "5")
           RefEnv.twelvePosts
           (mkWorld (docs RefEnv.twelvePosts) [OpFind])).
  reflexivity.
Defined.

(** C9: when the id parameter is absent or is not a number, [Atoi] gives 0
    (with an error that is dropped), the limit set is 0, which the store
    takes as no limit, and a returned listing holds a post for every
    accepted document, however many there are. *)
Theorem getAllPosts_unparsable_count_is_unlimited
  (env : Env) (c : Request) (w : World bson.D) :
  (forall v, ~ In ("id", v) (query c))
  \/ strconv.numeric (QueryParam c "id") = false ->
  strconv.Atoi (QueryParam c "id") = (0, true)
  /\ postsLimit (fst (strconv.Atoi (QueryParam c "id"))) = 0
  /\ (forall ds : list bson.D, mongo.limited 0 ds = ds)
  /\ forall r w',
       getAllPosts env c w = (Returned r, w') ->
       exists posts,
         r = JSON StatusOK [("posts", posts)]
         /\ map Some posts
            = map (decodePost env)
                (filter (bson.matches (postsFilter (QueryParam c "category")))
                   (docs w))
         /\ List.length posts
            = List.length (filter (bson.matches
                                (postsFilter (QueryParam c "category")))
                        (docs w)).
Proof.
  intros Hid.
  assert (Hatoi : strconv.Atoi (QueryParam c "id") = (0, true)).
  { apply Atoi_not_numeric. destruct Hid as [Habsent | Hnot]; [|exact Hnot].
    unfold QueryParam. now rewrite lookupParam_absent. }
  split; [exact Hatoi|]. rewrite Hatoi. cbn [fst].
  split; [reflexivity|]. split; [reflexivity|].
  intros r w' Hrun.
  destruct (getAllPosts_returned env c w w' r Hrun) as [posts [Hr Hposts]].
  rewrite Hatoi in Hposts. cbn in Hposts.
  exists posts. split; [exact Hr|]. split; [exact Hposts|].
  rewrite <- (length_map Some posts), Hposts. apply length_map.
Qed.

Lemma getAllPosts_unparsable_count_is_unlimited_witness :
  getAllPosts RefEnv.env RefEnv.listAllPosts RefEnv.twelvePosts
  = (Returned
       (JSON StatusOK
          [("posts", map RefEnv.decoded [1; 2; 3; 4; 5; 6; 7; 8; 9; 10; 11; 12])]),
     mkWorld (docs RefEnv.twelvePosts) [OpFind])
  /\ strconv.Atoi (QueryParam RefEnv.listAllPosts "id") = (0, true)
  /\ postsLimit (fst (strconv.Atoi (QueryParam RefEnv.listAllPosts "id"))) = 0.
Proof.
  split; [reflexivity|].
  destruct (getAllPosts_unparsable_count_is_unlimited RefEnv.env
              RefEnv.listAllPosts RefEnv.twelvePosts) as [Hatoi [Hlimit _]].
  - left. intros v Hin. exact Hin.
  - split; [exact Hatoi | exact Hlimit].
Defined.

(** The same through a parameter that is present but not a number. *)
Lemma getAllPosts_non_numeric_id :
  strconv.numeric "ten" = false
  /\ getAllPosts RefEnv.env (RefEnv.listPosts "ten") RefEnv.twelvePosts
     = (Returned
          (JSON StatusOK
             [("posts",
               map RefEnv.decoded [1; 2; 3; 4; 5; 6; 7; 8; 9; 10; 11; 12])]),
        mkWorld (docs RefEnv.twelvePosts) [OpFind]).
Proof. split; reflexivity. Qed.

(** ** Deleting a sponsor *)

(** C10: when the id field does not parse as a UUID, [deleteSponsor] panics
    in [uuid.Must] before any call to the store (the world is as it was) and
    writes no response; when it parses, the handler performs the delete and
    ends by returning the empty object or in [log.Fatal], never in a
    panic. *)
Theorem deleteSponsor_panics_on_malformed_id
  (env : Env) (c : Request) (w : World Sponsor) :
  (uuidParse env (FormValue c "id") = None ->
   deleteSponsor env c w = (Panicked, w))
  /\ (forall parsedID,
        uuidParse env (FormValue c "id") = Some parsedID ->
        exists ds,
          deleteSponsor env c w
          = (if deleteOneErr env then Fatal else Returned (JSON StatusOK []),
             mkWorld ds (trace w ++ [OpDeleteOne]))).
Proof.
  split.
  - intros Hparse. unfold deleteSponsor, uuid_Must. rewrite Hparse. reflexivity.
  - intros parsedID Hparse. unfold deleteSponsor, uuid_Must. rewrite Hparse.
    run_handler. destruct (deleteOneErr env); cbn [docs trace]; eexists;
      reflexivity.
Qed.

Lemma deleteSponsor_panics_on_malformed_id_witness :
  uuidParse RefEnv.env (FormValue (RefEnv.deleteRequest "not-a-uuid") "id") = None
  /\ deleteSponsor RefEnv.env (RefEnv.deleteRequest "not-a-uuid")
       RefEnv.emptyStore
     = (Panicked, RefEnv.emptyStore).
Proof.
  split; [reflexivity|].
  apply (proj1 (deleteSponsor_panics_on_malformed_id RefEnv.env
                  (RefEnv.deleteRequest "not-a-uuid") RefEnv.emptyStore)).
  reflexivity.
Defined.


(** * Further properties of the handlers *)

(** ** The collection operations *)

Module mongoFacts.
Section Facts.
Context {Doc : Type}.
Implicit Types (f h : Doc -> bool) (g : Doc -> Doc) (l : list Doc).

Lemma find_none_iff f l :
  find f l = None <-> forall d, In d l -> f d = false.
Proof.
  split.
  - intros Hnone d Hin. now apply (find_none f l Hnone).
  - induction l as [|a l IH]; intros Hall; [reflexivity|]. cbn.
    rewrite (Hall a (or_introl eq_refl)). apply IH.
    intros d Hd. apply Hall. now right.
Qed.

Lemma find_app_absent f l d :
  find f l = None -> find f (l ++ [d]) = if f d then Some d else None.
Proof.
  induction l as [|a l IH]; cbn; [reflexivity|].
  destruct (f a); [discriminate|exact IH].
Qed.

Lemma find_app_present f l l' x :
  find f l = Some x -> find f (l ++ l') = Some x.
Proof.
  induction l as [|a l IH]; cbn; [discriminate|].
  destruct (f a); [trivial|exact IH].
Qed.

Lemma updateFirst_absent f g l :
  find f l = None -> mongo.updateFirst f g l = l.
Proof.
  induction l as [|a l IH]; cbn; [reflexivity|].
  destruct (f a); [discriminate|]. intros Hnone. now rewrite IH.
Qed.

Lemma length_updateFirst f g l :
  List.length (mongo.updateFirst f g l) = List.length l.
Proof.
  induction l as [|a l IH]; cbn; [reflexivity|].
  destruct (f a); cbn; [reflexivity|now rewrite IH].
Qed.

(** When the rewritten document is still accepted, it is the one found. *)
Lemma find_updateFirst f g l x :
  find f l = Some x -> f (g x) = true ->
  find f (mongo.updateFirst f g l) = Some (g x).
Proof.
  induction l as [|a l IH]; cbn; [discriminate|].
  destruct (f a) eqn:Ha.
  - intros [= ->] Hg. cbn. now rewrite Hg.
  - intros Hx Hg. cbn. rewrite Ha. now apply IH.
Qed.

(** A lookup that accepts nothing the update accepts does not see it. *)
Lemma find_updateFirst_other f g h l :
  (forall d, h d = true -> f d = false) ->
  (forall d, f d = true -> h (g d) = false) ->
  find h (mongo.updateFirst f g l) = find h l.
Proof.
  intros Hdisj Hg. induction l as [|a l IH]; cbn; [reflexivity|].
  destruct (f a) eqn:Ha; cbn.
  - rewrite (Hg a Ha). destruct (h a) eqn:Hh; [|reflexivity].
    apply Hdisj in Hh. congruence.
  - now rewrite IH.
Qed.

Lemma map_updateFirst {K : Type} (key : Doc -> K) f g l :
  (forall d, key (g d) = key d) ->
  map key (mongo.updateFirst f g l) = map key l.
Proof.
  intros Hkey. induction l as [|a l IH]; cbn; [reflexivity|].
  destruct (f a); cbn; [now rewrite Hkey|now rewrite IH].
Qed.

Lemma deleteFirst_absent f l :
  find f l = None -> mongo.deleteFirst f l = l.
Proof.
  induction l as [|a l IH]; cbn; [reflexivity|].
  destruct (f a); [discriminate|]. intros Hnone. now rewrite IH.
Qed.

Lemma length_deleteFirst f l x :
  find f l = Some x ->
  S (List.length (mongo.deleteFirst f l)) = List.length l.
Proof.
  induction l as [|a l IH]; cbn; [discriminate|].
  destruct (f a); [reflexivity|]. intros Hx. cbn. now rewrite IH.
Qed.

Lemma deleteFirst_incl f l d :
  In d (mongo.deleteFirst f l) -> In d l.
Proof.
  induction l as [|a l IH]; cbn; [trivial|].
  destruct (f a); [now right|]. intros [->|Hin]; [now left|right; now apply IH].
Qed.

Lemma find_deleteFirst_other f h l :
  (forall d, h d = true -> f d = false) ->
  find h (mongo.deleteFirst f l) = find h l.
Proof.
  intros Hdisj. induction l as [|a l IH]; cbn; [reflexivity|].
  destruct (f a) eqn:Ha; cbn.
  - destruct (h a) eqn:Hh; [|reflexivity]. apply Hdisj in Hh. congruence.
  - now rewrite IH.
Qed.

(** Deleting what was just appended, when nothing before it is accepted. *)
Lemma deleteFirst_app_last f l d :
  find f l = None -> f d = true -> mongo.deleteFirst f (l ++ [d]) = l.
Proof.
  induction l as [|a l IH]; cbn.
  - intros _ ->. reflexivity.
  - destruct (f a); [discriminate|]. intros Hnone Hd. now rewrite IH.
Qed.

(** With keys that are unique, nothing is left under a deleted key. *)
Lemma find_deleteFirst_unique {K : Type} (key : Doc -> K) f l :
  (forall d d', f d = true -> f d' = true -> key d = key d') ->
  NoDup (map key l) ->
  find f (mongo.deleteFirst f l) = None.
Proof.
  intros Hkey. induction l as [|a l IH]; cbn; [reflexivity|].
  intros Hnodup. inversion Hnodup as [|? ? Hnotin Hrest]; subst.
  destruct (f a) eqn:Ha; cbn.
  - apply find_none_iff. intros d Hd.
    destruct (f d) eqn:Hfd; [|reflexivity].
    exfalso. apply Hnotin. rewrite (Hkey a d Ha Hfd). now apply in_map.
  - rewrite Ha. now apply IH.
Qed.

(** The rewrite touches the first accepted document and no other. *)
Lemma updateFirst_split f g l1 x l2 :
  (forall d, In d l1 -> f d = false) -> f x = true ->
  mongo.updateFirst f g (l1 ++ x :: l2) = (l1 ++ g x :: l2)%list.
Proof.
  intros Hbefore Hx. induction l1 as [|a l1 IH]; cbn.
  - now rewrite Hx.
  - rewrite (Hbefore a (or_introl eq_refl)). f_equal. apply IH.
    intros d Hd. apply Hbefore. now right.
Qed.

(** A test that the rewrite does not change sees as much before as after. *)
Lemma existsb_updateFirst f g h l :
  (forall d, h (g d) = h d) ->
  existsb h (mongo.updateFirst f g l) = existsb h l.
Proof.
  intros Hg. induction l as [|a l IH]; cbn; [reflexivity|].
  destruct (f a); cbn; [now rewrite Hg|now rewrite IH].
Qed.

Lemma existsb_app_rejected h l d :
  h d = false -> existsb h (l ++ [d])%list = existsb h l.
Proof.
  intros Hd. rewrite existsb_app. cbn. rewrite Hd. now rewrite !orb_false_r.
Qed.

End Facts.
End mongoFacts.

(** How the four write handlers of one collection run. *)
Ltac run_write :=
  cbv beta delta [mongo.FindOne mongo.InsertOne mongo.UpdateOne mongo.DeleteOne
    bind ret perform log_Fatal panic getDocs putDocs after outcome] iota;
  cbn [docs trace fst snd].

(** ** Categories *)

Section CategoryRuns.
Variables (env : Env) (c : Request) (w : World Category).

Lemma getCat_run :
  getCat env c w
  = (if findOneErr env then Fatal
     else match find (hasCategoryID (fst (strconv.Atoi (QueryParam c "id"))))
                  (docs w) with
          | Some stored => Returned (JSON StatusOK [("category", zeroCategory)])
          | None => Fatal
          end,
     mkWorld (docs w) (trace w ++ [OpFindOne])).
Proof.
  unfold getCat. run_write. destruct (findOneErr env); [reflexivity|].
  cbn [docs trace]. unfold decodeCategory.
  destruct (find _ (docs w)); reflexivity.
Qed.

Lemma patchCat_run :
  patchCat env c w
  = if updateOneErr env then (Fatal, mkWorld (docs w) (trace w ++ [OpUpdateOne]))
    else (Returned (JSON StatusOK []),
          mkWorld
            (mongo.updateFirst
               (hasCategoryID (fst (strconv.Atoi (FormValue c "id"))))
               (patchCatSet (FormValue c "name")
                  (fst (strconv.Atoi (FormValue c "index"))))
               (docs w))
            (trace w ++ [OpUpdateOne])).
Proof.
  unfold patchCat. run_write. now destruct (updateOneErr env).
Qed.

Lemma deleteCat_run :
  deleteCat env c w
  = if deleteOneErr env then (Fatal, mkWorld (docs w) (trace w ++ [OpDeleteOne]))
    else (Returned (JSON StatusOK []),
          mkWorld
            (mongo.deleteFirst
               (hasCategoryID (fst (strconv.Atoi (FormValue c "id")))) (docs w))
            (trace w ++ [OpDeleteOne])).
Proof.
  unfold deleteCat. run_write. now destruct (deleteOneErr env).
Qed.

End CategoryRuns.

Lemma hasCategoryID_eq (id : Z) (cat : Category) :
  hasCategoryID id cat = true <-> categoryID cat = id.
Proof. unfold hasCategoryID. apply Z.eqb_eq. Qed.

Lemma find_hasCategoryID_none (id : Z) (l : list Category) :
  find (hasCategoryID id) l = None
  <-> forall cat, In cat l -> categoryID cat <> id.
Proof.
  rewrite mongoFacts.find_none_iff. split; intros Hall cat Hin.
  - intros Heq. apply hasCategoryID_eq in Heq. rewrite (Hall cat Hin) in Heq.
    discriminate.
  - destruct (hasCategoryID id cat) eqn:Hid; [|reflexivity].
    apply hasCategoryID_eq in Hid. now apply Hall in Hid.
Qed.

(** X1. [getCat] reads and never writes.  It answers only when the lookup
    succeeds and a stored category has the requested ID, and then with the
    zero [Category], whatever the stored category holds; it ends in
    [log.Fatal] when the lookup fails and when no category has the ID: a
    lookup of an unknown category stops the server. *)
Theorem getCat_answers_zero_or_exits (env : Env) (c : Request) (w : World Category) :
  after (getCat env c) w = mkWorld (docs w) (trace w ++ [OpFindOne])
  /\ ((outcome (getCat env c) w
       = Returned (JSON StatusOK [("category", mkCategory 0 "" 0)])
       /\ findOneErr env = false
       /\ exists cat,
            In cat (docs w)
            /\ categoryID cat = fst (strconv.Atoi (QueryParam c "id")))
      \/ (outcome (getCat env c) w = Fatal
          /\ (findOneErr env = true
              \/ forall cat, In cat (docs w) ->
                   categoryID cat <> fst (strconv.Atoi (QueryParam c "id"))))).
Proof.
  unfold after, outcome. rewrite getCat_run. cbn [fst snd].
  split; [reflexivity|].
  destruct (findOneErr env); [right; split; [reflexivity|now left]|].
  destruct (find _ (docs w)) as [cat|] eqn:Hfind.
  - left. split; [reflexivity|]. split; [reflexivity|]. exists cat.
    apply find_some in Hfind. destruct Hfind as [Hin Hid].
    apply hasCategoryID_eq in Hid. now split.
  - right. split; [reflexivity|]. right. now apply find_hasCategoryID_none.
Qed.

(** X4. [patchCat] rewrites the first category with the ID and no other:
    that category keeps its ID and gets the name sent and the index parsed
    from the form, the categories before and behind it are what they were,
    also those behind it that have the same ID. *)
Theorem patchCat_rewrites_first
  (env : Env) (c : Request) (w : World Category)
  (before behind : list Category) (old : Category) :
  updateOneErr env = false ->
  docs w = (before ++ old :: behind)%list ->
  (forall cat, In cat before ->
     categoryID cat <> fst (strconv.Atoi (FormValue c "id"))) ->
  categoryID old = fst (strconv.Atoi (FormValue c "id")) ->
  patchCat env c w
  = (Returned (JSON StatusOK []),
     mkWorld
       (before
        ++ mkCategory (categoryID old) (FormValue c "name")
             (fst (strconv.Atoi (FormValue c "index")))
           :: behind)
       (trace w ++ [OpUpdateOne])).
Proof.
  intros Hupd Hdocs Hbefore Hold. rewrite patchCat_run, Hupd, Hdocs.
  rewrite mongoFacts.updateFirst_split; [reflexivity| |].
  - apply mongoFacts.find_none_iff. now apply find_hasCategoryID_none.
  - now apply hasCategoryID_eq.
Qed.

Lemma patchCat_rewrites_first_witness :
  patchCat RefEnv.env
    (Fixtures.request [("id", "2"); ("name", "Socials"); ("index", "9")])
    (mkWorld [mkCategory 1 "News" 0; mkCategory 2 "Events" 1;
              mkCategory 2 "Twin" 4] [])
  = (Returned (JSON StatusOK []),
     mkWorld
       ([mkCategory 1 "News" 0]
        ++ mkCategory 2 "Socials" 9 :: [mkCategory 2 "Twin" 4])
       ([] ++ [OpUpdateOne])).
Proof.
  apply (patchCat_rewrites_first RefEnv.env
           (Fixtures.request [("id", "2"); ("name", "Socials"); ("index", "9")])
           (mkWorld [mkCategory 1 "News" 0; mkCategory 2 "Events" 1;
                     mkCategory 2 "Twin" 4] [])
           [mkCategory 1 "News" 0] [mkCategory 2 "Twin" 4]
           (mkCategory 2 "Events" 1)); try reflexivity.
  intros cat [<-|[]]. vm_compute. discriminate.
Defined.

(** X5. [patchCat] never creates: for an ID that no stored category has it
    answers 200 with the empty object and the store is what it was. *)
Theorem patchCat_unknown_id_changes_nothing
  (env : Env) (c : Request) (w : World Category) :
  updateOneErr env = false ->
  (forall cat, In cat (docs w) ->
     categoryID cat <> fst (strconv.Atoi (FormValue c "id"))) ->
  patchCat env c w
  = (Returned (JSON StatusOK []), mkWorld (docs w) (trace w ++ [OpUpdateOne])).
Proof.
  intros Hupd Hfresh. rewrite patchCat_run, Hupd.
  apply find_hasCategoryID_none in Hfresh.
  now rewrite (mongoFacts.updateFirst_absent _ _ _ Hfresh).
Qed.

Lemma patchCat_unknown_id_changes_nothing_witness :
  patchCat RefEnv.env
    (Fixtures.request [("id", "40"); ("name", "Ghost"); ("index", "1")])
    Fixtures.categories
  = (Returned (JSON StatusOK []),
     mkWorld (docs Fixtures.categories)
       (trace Fixtures.categories ++ [OpUpdateOne])).
Proof.
  apply (patchCat_unknown_id_changes_nothing RefEnv.env
           (Fixtures.request [("id", "40"); ("name", "Ghost"); ("index", "1")])
           Fixtures.categories).
  - reflexivity.
  - intros cat [<-|[<-|[]]]; vm_compute; discriminate.
Defined.

(** X6. [deleteCat] answers 200 whether or not the ID is stored; it removes
    one category when there is one with the ID and none otherwise, and when
    the stored IDs are distinct [getCat] has nothing left to answer for the
    deleted ID. *)
Theorem deleteCat_removes_one
  (env : Env) (c c' : Request) (w : World Category) :
  deleteOneErr env = false ->
  fst (strconv.Atoi (QueryParam c' "id")) = fst (strconv.Atoi (FormValue c "id")) ->
  outcome (deleteCat env c) w = Returned (JSON StatusOK [])
  /\ ((forall cat, In cat (docs w) ->
         categoryID cat <> fst (strconv.Atoi (FormValue c "id"))) ->
      docs (after (deleteCat env c) w) = docs w)
  /\ (forall old,
        find (hasCategoryID (fst (strconv.Atoi (FormValue c "id")))) (docs w)
        = Some old ->
        S (List.length (docs (after (deleteCat env c) w))) = List.length (docs w))
  /\ (NoDup (map categoryID (docs w)) ->
      outcome (getCat env c') (after (deleteCat env c) w) = Fatal).
Proof.
  intros Hdel Hid. unfold after, outcome.
  rewrite deleteCat_run, Hdel. cbn [fst snd docs].
  split; [reflexivity|]. split; [|split].
  - intros Hfresh. apply find_hasCategoryID_none in Hfresh.
    now apply mongoFacts.deleteFirst_absent.
  - intros old Hold. now apply (mongoFacts.length_deleteFirst _ _ old).
  - intros Hnodup. rewrite getCat_run. cbn [fst snd docs]. rewrite Hid.
    destruct (findOneErr env); [reflexivity|].
    rewrite (mongoFacts.find_deleteFirst_unique categoryID); trivial.
    intros d d' Hd Hd'. apply hasCategoryID_eq in Hd, Hd'. congruence.
Qed.

Lemma deleteCat_removes_one_witness :
  outcome (deleteCat RefEnv.env (Fixtures.request [("id", "1")]))
    Fixtures.categories
  = Returned (JSON StatusOK [])
  /\ docs (after (deleteCat RefEnv.env (Fixtures.request [("id", "1")]))
             Fixtures.categories)
     = [mkCategory 2 "Events" 1]
  /\ outcome (getCat RefEnv.env (Fixtures.request [("id", "1")]))
       (after (deleteCat RefEnv.env (Fixtures.request [("id", "1")]))
          Fixtures.categories)
     = Fatal.
Proof.
  destruct (deleteCat_removes_one RefEnv.env (Fixtures.request [("id", "1")])
              (Fixtures.request [("id", "1")]) Fixtures.categories)
    as [Hok [_ [_ Hgone]]]; try reflexivity.
  split; [exact Hok|]. split; [reflexivity|].
  apply Hgone. vm_compute.
  repeat (constructor; [cbn; intuition discriminate|]). constructor.
Defined.

(** X7. A category other than the one asked for is out of the reach of
    [patchCat] and [deleteCat]: what the store answers for any other ID is
    the same before and after the call, however the call ends. *)
Theorem patchCat_deleteCat_frame
  (env : Env) (c : Request) (w : World Category) (other : Z) :
  other <> fst (strconv.Atoi (FormValue c "id")) ->
  find (hasCategoryID other) (docs (after (patchCat env c) w))
  = find (hasCategoryID other) (docs w)
  /\ find (hasCategoryID other) (docs (after (deleteCat env c) w))
     = find (hasCategoryID other) (docs w).
Proof.
  intros Hother.
  assert (Hdisj : forall d, hasCategoryID other d = true ->
            hasCategoryID (fst (strconv.Atoi (FormValue c "id"))) d = false).
  { intros d Hd. apply hasCategoryID_eq in Hd.
    destruct (hasCategoryID _ d) eqn:Hid; [|reflexivity].
    apply hasCategoryID_eq in Hid. congruence. }
  unfold after. rewrite patchCat_run, deleteCat_run. split.
  - destruct (updateOneErr env); cbn [snd docs]; [reflexivity|].
    apply mongoFacts.find_updateFirst_other; [exact Hdisj|].
    intros d Hd. apply hasCategoryID_eq in Hd.
    unfold hasCategoryID, patchCatSet. cbn [categoryID].
    apply Z.eqb_neq. congruence.
  - destruct (deleteOneErr env); cbn [snd docs]; [reflexivity|].
    now apply mongoFacts.find_deleteFirst_other.
Qed.

Lemma patchCat_deleteCat_frame_witness :
  find (hasCategoryID 2)
    (docs (after (patchCat RefEnv.env
                    (Fixtures.request
                       [("id", "1"); ("name", "Jobs"); ("index", "5")]))
             Fixtures.categories))
  = find (hasCategoryID 2) (docs Fixtures.categories)
  /\ find (hasCategoryID 2)
       (docs (after (deleteCat RefEnv.env
                       (Fixtures.request
                          [("id", "1"); ("name", "Jobs"); ("index", "5")]))
                Fixtures.categories))
     = find (hasCategoryID 2) (docs Fixtures.categories).
Proof.
  apply (patchCat_deleteCat_frame RefEnv.env
           (Fixtures.request [("id", "1"); ("name", "Jobs"); ("index", "5")])
           Fixtures.categories 2).
  vm_compute. discriminate.
Defined.

(** ** Documents, filters and [$set] *)

Module bsonFacts.

Lemma Value_eqb_eq (a b : bson.Value) : bson.Value_eqb a b = true <-> a = b.
Proof.
  destruct a, b; cbn; split; intros Heq; try discriminate; try reflexivity.
  - apply String.eqb_eq in Heq. now subst.
  - inversion Heq. apply String.eqb_refl.
  - apply Z.eqb_eq in Heq. now subst.
  - inversion Heq. apply Z.eqb_refl.
  - apply Bool.eqb_prop in Heq. now subst.
  - inversion Heq. apply Bool.eqb_reflx.
Qed.

(** A condition on a value other than null holds exactly of the documents
    that have the field with that value. *)
Lemma holds_value (doc : bson.D) (key : string) (v : bson.Value) :
  v <> bson.Null ->
  bson.holds doc (key, v) = true <-> bson.field key doc = Some v.
Proof.
  intros Hv. unfold bson.holds. cbn [fst snd].
  destruct (bson.field key doc) as [x|].
  - rewrite Value_eqb_eq. split; congruence.
  - destruct v; split; intros; congruence.
Qed.

Lemma matches_postID (id : Z) (doc : bson.D) :
  bson.matches [("postID", bson.Int id)] doc = true
  <-> bson.field "postID" doc = Some (bson.Int id).
Proof.
  unfold bson.matches. cbn [forallb]. rewrite andb_true_r.
  apply holds_value. discriminate.
Qed.

Lemma matches_getPostFilter (id : Z) (category : string) (doc : bson.D) :
  bson.matches (getPostFilter id category) doc = true
  <-> bson.field "postID" doc = Some (bson.Int id)
      /\ bson.field "category" doc = Some (bson.Str category).
Proof.
  unfold bson.matches, getPostFilter. cbn [forallb].
  rewrite andb_true_r, andb_true_iff.
  rewrite !holds_value by discriminate. reflexivity.
Qed.

Lemma field_setField_same (key : string) (v : bson.Value) (doc : bson.D) :
  bson.field key (setField key v doc) = Some v.
Proof.
  induction doc as [|[k x] doc IH]; cbn.
  - now rewrite String.eqb_refl.
  - destruct (String.eqb k key) eqn:Hk; cbn; rewrite Hk; [reflexivity|exact IH].
Qed.

Lemma field_setField_other (key key' : string) (v : bson.Value) (doc : bson.D) :
  key' <> key ->
  bson.field key' (setField key v doc) = bson.field key' doc.
Proof.
  intros Hne. induction doc as [|[k x] doc IH]; cbn.
  - destruct (String.eqb_spec key key'); [congruence|reflexivity].
  - destruct (String.eqb_spec k key) as [->|Hk]; cbn.
    + destruct (String.eqb_spec key key'); [congruence|reflexivity].
    + now rewrite IH.
Qed.

(** [$set] leaves every field alone that it does not name. *)
Lemma field_applySet_other (set : bson.D) (key : string) :
  forall doc,
    ~ In key (map fst set) ->
    bson.field key (applySet set doc) = bson.field key doc.
Proof.
  unfold applySet.
  induction set as [|[k v] set IH]; intros doc Hnotin; cbn; [reflexivity|].
  rewrite IH by (intros Hin; apply Hnotin; now right).
  apply field_setField_other. intros ->. apply Hnotin. now left.
Qed.

(** and gives every field it names, once, the value it names. *)
Lemma field_applySet_named (set : bson.D) (key : string) (v : bson.Value) :
  forall doc,
    NoDup (map fst set) -> In (key, v) set ->
    bson.field key (applySet set doc) = Some v.
Proof.
  unfold applySet.
  induction set as [|[k x] set IH]; intros doc Hnodup Hin; [contradiction|].
  cbn in *. inversion Hnodup as [|? ? Hnotin Hrest]; subst.
  destruct Hin as [[= -> ->]|Hin].
  - fold (applySet set (setField key v doc)).
    rewrite field_applySet_other by exact Hnotin.
    apply field_setField_same.
  - now apply IH.
Qed.

End bsonFacts.

(** ** Single posts *)

Section PostRuns.
Variables (env : Env) (marshalPost : Post -> bson.D) (timeValue : Time -> bson.Value).
Variables (c : Request) (w : World bson.D).

Lemma getPost_run :
  getPost env c w
  = (if findOneErr env then Fatal
     else
       match find (bson.matches (getPostFilter (fst (strconv.Atoi (QueryParam c "id")))
                                   (QueryParam c "category"))) (docs w) with
       | Some d =>
           match decodePost env d with
           | Some result => Returned (JSON StatusOK [("post", result)])
           | None => Fatal
           end
       | None => Fatal
       end,
     mkWorld (docs w) (trace w ++ [OpFindOne])).
Proof.
  unfold getPost. run_write. destruct (findOneErr env); [reflexivity|].
  cbn [docs trace].
  destruct (find _ (docs w)) as [d|]; [|reflexivity].
  now destruct (decodePost env d).
Qed.

Lemma newPost_docs :
  docs (after (newPost env marshalPost c) w) = docs w
  \/ exists post, docs (after (newPost env marshalPost c) w)
                  = (docs w ++ [marshalPost post])%list.
Proof.
  unfold newPost. run_write.
  destruct (insertOneErr env); cbn [docs snd]; [now left|right; eauto].
Qed.

Lemma updatePost_run :
  updatePost env timeValue c w
  = if updateOneErr env then (Fatal, mkWorld (docs w) (trace w ++ [OpUpdateOne]))
    else (Returned (JSON StatusOK []),
          mkWorld
            (mongo.updateFirst
               (bson.matches [("postID", bson.Int (fst (strconv.Atoi (FormValue c "id"))))])
               (applySet (updatePostSet env timeValue c))
               (docs w))
            (trace w ++ [OpUpdateOne])).
Proof.
  unfold updatePost. run_write. now destruct (updateOneErr env).
Qed.

Lemma deletePost_run :
  deletePost env c w
  = if deleteOneErr env then (Fatal, mkWorld (docs w) (trace w ++ [OpDeleteOne]))
    else (Returned (JSON StatusOK []),
          mkWorld
            (mongo.deleteFirst
               (bson.matches [("postID", bson.Int (fst (strconv.Atoi (FormValue c "id"))))])
               (docs w))
            (trace w ++ [OpDeleteOne])).
Proof.
  unfold deletePost. run_write. now destruct (deleteOneErr env).
Qed.

End PostRuns.

(** X8. [getPost] reads and never writes, and what it answers is decoded
    from a stored document that has both the requested postID and a field
    "category" equal to the category parameter as a string; a post without
    such a field is never answered. *)
Theorem getPost_answers_from_category_field
  (env : Env) (c : Request) (w w' : World bson.D) (r : Response Post) :
  getPost env c w = (Returned r, w') ->
  w' = mkWorld (docs w) (trace w ++ [OpFindOne])
  /\ exists d post,
       In d (docs w)
       /\ bson.field "postID" d
          = Some (bson.Int (fst (strconv.Atoi (QueryParam c "id"))))
       /\ bson.field "category" d = Some (bson.Str (QueryParam c "category"))
       /\ decodePost env d = Some post
       /\ r = JSON StatusOK [("post", post)].
Proof.
  rewrite getPost_run.
  destruct (findOneErr env); [discriminate|].
  destruct (find _ (docs w)) as [d|] eqn:Hfind; [|discriminate].
  destruct (decodePost env d) as [post|] eqn:Hdec; [|discriminate].
  intros [= <- <-]. split; [reflexivity|]. exists d, post.
  apply find_some in Hfind. destruct Hfind as [Hin Hmatch].
  apply bsonFacts.matches_getPostFilter in Hmatch. now repeat split.
Qed.

Lemma getPost_answers_from_category_field_witness :
  mkWorld (docs Fixtures.posts) [OpFindOne]
  = mkWorld (docs Fixtures.posts) (trace Fixtures.posts ++ [OpFindOne])
  /\ exists d post,
       In d (docs Fixtures.posts)
       /\ bson.field "postID" d = Some (bson.Int 1)
       /\ bson.field "category" d = Some (bson.Str "news")
       /\ decodePost RefEnv.env d = Some post
       /\ JSON StatusOK [("post", RefEnv.decoded 1)]
          = JSON StatusOK [("post", post)].
Proof.
  apply (getPost_answers_from_category_field RefEnv.env
           (Fixtures.request [("id", "1"); ("category", "news")])
           Fixtures.posts).
  reflexivity.
Defined.

(** X9. The filter of [getPost] asks for a field "category", which [Post]
    does not have: as long as the encoding of a [Post] carries no such key,
    a store filled through [newPost] holds no document with that field, and
    [getPost] ends in [log.Fatal] whatever it is asked for. *)
Theorem newPost_then_getPost_exits
  (env : Env) (marshalPost : Post -> bson.D) (c c' : Request) (w : World bson.D) :
  (forall p, bson.field "category" (marshalPost p) = None) ->
  (forall d, In d (docs w) -> bson.field "category" d = None) ->
  (forall d, In d (docs (after (newPost env marshalPost c) w)) ->
     bson.field "category" d = None)
  /\ outcome (getPost env c') (after (newPost env marshalPost c) w) = Fatal.
Proof.
  intros Hmarshal Hstore.
  assert (Hafter : forall d, In d (docs (after (newPost env marshalPost c) w)) ->
                     bson.field "category" d = None).
  { intros d Hin.
    destruct (newPost_docs env marshalPost c w) as [Heq | [post Heq]];
      rewrite Heq in Hin; [now apply Hstore|].
    apply in_app_or in Hin. destruct Hin as [Hin | [<- | []]];
      [now apply Hstore | apply Hmarshal]. }
  split; [exact Hafter|]. unfold outcome. rewrite getPost_run. cbn [fst].
  destruct (findOneErr env); [reflexivity|].
  destruct (find _ _) as [d|] eqn:Hfind; [|reflexivity].
  apply find_some in Hfind. destruct Hfind as [Hin Hmatch].
  apply bsonFacts.matches_getPostFilter in Hmatch.
  rewrite (Hafter d Hin) in Hmatch. destruct Hmatch as [_ Hcat]. discriminate.
Qed.

Lemma newPost_then_getPost_exits_witness :
  (forall d,
     In d (docs (after (newPost RefEnv.env Fixtures.marshalPost
                          (Fixtures.request [("id", "3"); ("title", "Hello")]))
                   RefEnv.emptyStore)) ->
     bson.field "category" d = None)
  /\ outcome (getPost RefEnv.env (Fixtures.request [("id", "3")]))
       (after (newPost RefEnv.env Fixtures.marshalPost
                 (Fixtures.request [("id", "3"); ("title", "Hello")]))
          RefEnv.emptyStore)
     = Fatal.
Proof.
  apply (newPost_then_getPost_exits RefEnv.env Fixtures.marshalPost
           (Fixtures.request [("id", "3"); ("title", "Hello")])
           (Fixtures.request [("id", "3")]) RefEnv.emptyStore).
  - intros p. reflexivity.
  - intros d [].
Defined.

(** The keys of the [$set] document of [updatePost]. *)
Lemma updatePostSet_keys (env : Env) (timeValue : Time -> bson.Value) (c : Request) :
  map fst (updatePostSet env timeValue c)
  = ["postTitle"; "postSubtitle"; "postType"; "postCategory"; "lastEditedOn";
     "postContent"; "postLinkGithub"; "postLinkFacebook"; "showinMenu"].
Proof. reflexivity. Qed.

(** X10. [updatePost] rewrites the first document with the postID in place:
    the store keeps its size, the document is still the one found under the
    postID, its fields outside the nine keys of the [$set] are untouched
    (among them "postID", "createdOn" and "showInMenu", the flag being
    written under the key "showinMenu"), and its "postCategory" is now the
    category parameter as a string. *)
Theorem updatePost_rewrites_in_place
  (env : Env) (timeValue : Time -> bson.Value) (c : Request)
  (w : World bson.D) (d : bson.D) :
  updateOneErr env = false ->
  find (bson.matches [("postID", bson.Int (fst (strconv.Atoi (FormValue c "id"))))])
    (docs w) = Some d ->
  let w' := after (updatePost env timeValue c) w in
  let d' := applySet (updatePostSet env timeValue c) d in
  List.length (docs w') = List.length (docs w)
  /\ find (bson.matches [("postID", bson.Int (fst (strconv.Atoi (FormValue c "id"))))])
       (docs w') = Some d'
  /\ (forall key,
        ~ In key ["postTitle"; "postSubtitle"; "postType"; "postCategory";
                  "lastEditedOn"; "postContent"; "postLinkGithub";
                  "postLinkFacebook"; "showinMenu"] ->
        bson.field key d' = bson.field key d)
  /\ bson.field "showInMenu" d' = bson.field "showInMenu" d
  /\ bson.field "createdOn" d' = bson.field "createdOn" d
  /\ bson.field "postCategory" d' = Some (bson.Str (FormValue c "category"))
  /\ bson.field "showinMenu" d'
     = Some (bson.Boolean (fst (ParseBool (FormValue c "showInMenu")))).
Proof.
  intros Hupd Hfind w' d'.
  assert (Hother : forall key,
            ~ In key (map fst (updatePostSet env timeValue c)) ->
            bson.field key d' = bson.field key d)
    by (intros key; apply bsonFacts.field_applySet_other).
  assert (Hnodup : NoDup (map fst (updatePostSet env timeValue c))).
  { rewrite updatePostSet_keys.
    repeat (constructor; [cbn; intuition discriminate|]). constructor. }
  unfold w', after. rewrite updatePost_run, Hupd. cbn [snd docs].
  split; [apply mongoFacts.length_updateFirst|]. split.
  - apply mongoFacts.find_updateFirst; [exact Hfind|].
    apply bsonFacts.matches_postID. fold d'.
    rewrite Hother by (rewrite updatePostSet_keys; cbn; intuition discriminate).
    apply find_some in Hfind. now apply bsonFacts.matches_postID.
  - split; [exact Hother|].
    split; [apply Hother; cbn; intuition discriminate|].
    split; [apply Hother; cbn; intuition discriminate|].
    split; apply bsonFacts.field_applySet_named; trivial; cbn; intuition.
Qed.

Lemma updatePost_rewrites_in_place_witness :
  let c := Fixtures.request
             [("id", "1"); ("title", "Camp"); ("category", "7");
              ("showInMenu", "false")] in
  let d := nth 0 (docs Fixtures.posts) [] in
  let w' := after (updatePost RefEnv.env Fixtures.timeValue c) Fixtures.posts in
  let d' := applySet (updatePostSet RefEnv.env Fixtures.timeValue c) d in
  List.length (docs w') = List.length (docs Fixtures.posts)
  /\ find (bson.matches [("postID", bson.Int 1)]) (docs w') = Some d'
  /\ (forall key,
        ~ In key ["postTitle"; "postSubtitle"; "postType"; "postCategory";
                  "lastEditedOn"; "postContent"; "postLinkGithub";
                  "postLinkFacebook"; "showinMenu"] ->
        bson.field key d' = bson.field key d)
  /\ bson.field "showInMenu" d' = Some (bson.Boolean true)
  /\ bson.field "createdOn" d' = Some (bson.Int 1500000000)
  /\ bson.field "postCategory" d' = Some (bson.Str "7")
  /\ bson.field "showinMenu" d' = Some (bson.Boolean false).
Proof.
  apply (updatePost_rewrites_in_place RefEnv.env Fixtures.timeValue
           (Fixtures.request
              [("id", "1"); ("title", "Camp"); ("category", "7");
               ("showInMenu", "false")])
           Fixtures.posts (nth 0 (docs Fixtures.posts) []));
    reflexivity.
Defined.

Lemma find_postID_none (id : Z) (l : list bson.D) :
  find (bson.matches [("postID", bson.Int id)]) l = None
  <-> forall d, In d l -> bson.field "postID" d <> Some (bson.Int id).
Proof.
  rewrite mongoFacts.find_none_iff. split; intros Hall d Hin.
  - intros Heq. apply bsonFacts.matches_postID in Heq.
    rewrite (Hall d Hin) in Heq. discriminate.
  - destruct (bson.matches _ d) eqn:Hm; [|reflexivity].
    apply bsonFacts.matches_postID in Hm. now apply Hall in Hm.
Qed.

(** X11. [updatePost] never creates: for a postID that no stored document
    has it answers 200 with the empty object and the store is what it
    was. *)
Theorem updatePost_unknown_id_changes_nothing
  (env : Env) (timeValue : Time -> bson.Value) (c : Request) (w : World bson.D) :
  updateOneErr env = false ->
  (forall d, In d (docs w) ->
     bson.field "postID" d
     <> Some (bson.Int (fst (strconv.Atoi (FormValue c "id"))))) ->
  updatePost env timeValue c w
  = (Returned (JSON StatusOK []), mkWorld (docs w) (trace w ++ [OpUpdateOne])).
Proof.
  intros Hupd Hfresh. rewrite updatePost_run, Hupd.
  apply find_postID_none in Hfresh.
  now rewrite (mongoFacts.updateFirst_absent _ _ _ Hfresh).
Qed.

Lemma updatePost_unknown_id_changes_nothing_witness :
  updatePost RefEnv.env Fixtures.timeValue
    (Fixtures.request [("id", "9"); ("title", "Ghost")]) Fixtures.posts
  = (Returned (JSON StatusOK []),
     mkWorld (docs Fixtures.posts) (trace Fixtures.posts ++ [OpUpdateOne])).
Proof.
  apply (updatePost_unknown_id_changes_nothing RefEnv.env Fixtures.timeValue
           (Fixtures.request [("id", "9"); ("title", "Ghost")]) Fixtures.posts).
  - reflexivity.
  - intros d [<-|[<-|[]]]; vm_compute; discriminate.
Defined.

(** X12. [deletePost] answers 200 whether or not the postID is stored; it
    removes one document when there is one with the postID and none
    otherwise, and whatever remains was stored before. *)
Theorem deletePost_removes_one (env : Env) (c : Request) (w : World bson.D) :
  deleteOneErr env = false ->
  outcome (deletePost env c) w = Returned (JSON StatusOK [])
  /\ ((forall d, In d (docs w) ->
         bson.field "postID" d
         <> Some (bson.Int (fst (strconv.Atoi (FormValue c "id"))))) ->
      docs (after (deletePost env c) w) = docs w)
  /\ (forall d,
        find (bson.matches
                [("postID", bson.Int (fst (strconv.Atoi (FormValue c "id"))))])
          (docs w) = Some d ->
        S (List.length (docs (after (deletePost env c) w)))
        = List.length (docs w))
  /\ (forall d, In d (docs (after (deletePost env c) w)) -> In d (docs w)).
Proof.
  intros Hdel. unfold after, outcome.
  rewrite deletePost_run, Hdel. cbn [fst snd docs].
  split; [reflexivity|]. split; [|split].
  - intros Hfresh. apply find_postID_none in Hfresh.
    now apply mongoFacts.deleteFirst_absent.
  - intros d Hd. now apply (mongoFacts.length_deleteFirst _ _ d).
  - intros d. apply mongoFacts.deleteFirst_incl.
Qed.

Lemma deletePost_removes_one_witness :
  outcome (deletePost RefEnv.env (Fixtures.request [("id", "2")])) Fixtures.posts
  = Returned (JSON StatusOK [])
  /\ docs (after (deletePost RefEnv.env (Fixtures.request [("id", "2")]))
             Fixtures.posts)
     = [nth 0 (docs Fixtures.posts) []].
Proof.
  split; [|reflexivity].
  apply (deletePost_removes_one RefEnv.env (Fixtures.request [("id", "2")])
           Fixtures.posts).
  reflexivity.
Defined.

(** X13. The handlers drop the error of [Atoi]: sent an id that is not a
    number, [deletePost] and [deleteCat] do exactly what they do when sent
    the id "0", and delete the post or the category whose ID is 0. *)
Theorem unparsable_id_deletes_record_zero
  (env : Env) (c c0 : Request) (wp : World bson.D) (wc : World Category) :
  strconv.numeric (FormValue c "id") = false ->
  FormValue c0 "id" = "0" ->
  deletePost env c wp = deletePost env c0 wp
  /\ deleteCat env c wc = deleteCat env c0 wc.
Proof.
  intros Hid Hzero. apply Atoi_not_numeric in Hid.
  rewrite !deletePost_run, !deleteCat_run, Hid, Hzero. split; reflexivity.
Qed.

Lemma unparsable_id_deletes_record_zero_witness :
  deletePost RefEnv.env (Fixtures.request [("id", "first")]) Fixtures.posts
  = deletePost RefEnv.env (Fixtures.request [("id", "0")]) Fixtures.posts
  /\ deleteCat RefEnv.env (Fixtures.request [("id", "first")])
       (mkWorld [mkCategory 1 "News" 0; mkCategory 0 "Home" 1] [])
     = deleteCat RefEnv.env (Fixtures.request [("id", "0")])
         (mkWorld [mkCategory 1 "News" 0; mkCategory 0 "Home" 1] []).
Proof.
  apply (unparsable_id_deletes_record_zero RefEnv.env
           (Fixtures.request [("id", "first")])
           (Fixtures.request [("id", "0")])); reflexivity.
Defined.

(** For instance the category "Home" of ID 0 is gone. *)
Lemma deleteCat_unparsable_id_example :
  docs (after (deleteCat RefEnv.env (Fixtures.request [("id", "first")]))
          (mkWorld [mkCategory 1 "News" 0; mkCategory 0 "Home" 1] []))
  = [mkCategory 1 "News" 0].
Proof. reflexivity. Qed.

(** ** Sponsors *)

Section SponsorRuns.
Variables (env : Env) (c : Request) (w : World Sponsor).

Lemma deleteSponsor_run (parsedID : UUID) :
  uuidParse env (FormValue c "id") = Some parsedID ->
  deleteSponsor env c w
  = if deleteOneErr env then (Fatal, mkWorld (docs w) (trace w ++ [OpDeleteOne]))
    else (Returned (JSON StatusOK []),
          mkWorld (mongo.deleteFirst (hasSponsorID parsedID) (docs w))
            (trace w ++ [OpDeleteOne])).
Proof.
  intros Hparse. unfold deleteSponsor, uuid_Must. rewrite Hparse. run_write.
  now destruct (deleteOneErr env).
Qed.

End SponsorRuns.

Lemma find_hasSponsorID_none (id : UUID) (l : list Sponsor) :
  find (hasSponsorID id) l = None
  <-> forall s, In s l -> sponsorID s <> id.
Proof.
  rewrite mongoFacts.find_none_iff. unfold hasSponsorID.
  split; intros Hall s Hin.
  - intros Heq. specialize (Hall s Hin). rewrite Heq, String.eqb_refl in Hall.
    discriminate.
  - apply String.eqb_neq. now apply Hall.
Qed.

(** X15. [deleteSponsor] answers 200 for a well-formed identifier that no
    stored sponsor has, and the store is what it was. *)
Theorem deleteSponsor_unknown_id_changes_nothing
  (env : Env) (c : Request) (w : World Sponsor) (parsedID : UUID) :
  deleteOneErr env = false ->
  uuidParse env (FormValue c "id") = Some parsedID ->
  (forall s, In s (docs w) -> sponsorID s <> parsedID) ->
  deleteSponsor env c w
  = (Returned (JSON StatusOK []), mkWorld (docs w) (trace w ++ [OpDeleteOne])).
Proof.
  intros Hdel Hparse Hfresh.
  rewrite (deleteSponsor_run env c w parsedID Hparse), Hdel.
  apply find_hasSponsorID_none in Hfresh.
  now rewrite (mongoFacts.deleteFirst_absent _ _ Hfresh).
Qed.

Lemma deleteSponsor_unknown_id_changes_nothing_witness :
  deleteSponsor RefEnv.env (Fixtures.request [("id", Fixtures.sponsorText)])
    Fixtures.sponsors
  = (Returned (JSON StatusOK []),
     mkWorld (docs Fixtures.sponsors) (trace Fixtures.sponsors ++ [OpDeleteOne])).
Proof.
  apply (deleteSponsor_unknown_id_changes_nothing RefEnv.env
           (Fixtures.request [("id", Fixtures.sponsorText)]) Fixtures.sponsors
           Fixtures.sponsorText); try reflexivity.
  intros s [<-|[]]. vm_compute. discriminate.
Defined.

(** ** The Session Store across logins *)

Lemma userFilter_rejects_empty (id : string) :
  bson.matches (userFilter id) [] = false.
Proof. reflexivity. Qed.

Lemma userFilter_after_update (id token : string) (d : bson.D) :
  bson.matches (userFilter id) (applySet (userTokenUpdate token) d)
  = bson.matches (userFilter id) d.
Proof.
  unfold bson.matches, userFilter, bson.holds. cbn [forallb fst snd].
  rewrite bsonFacts.field_applySet_other; [reflexivity|].
  cbn. intros [Heq|[]]. discriminate Heq.
Qed.

(** The documents that a call of [login] can leave behind. *)
Lemma login_docs (env : Env) (c : Request) (w : World bson.D) :
  docs (after (login env c) w) = docs w
  \/ docs (after (login env c) w) = (docs w ++ [[]])%list
  \/ (exists token,
        docs (after (login env c) w)
        = mongo.updateFirst
            (bson.matches (userFilter (Sum256 env (FormValue c "zid"))))
            (applySet (userTokenUpdate token)) (docs w)).
Proof.
  unfold after. rewrite login_paths.
  destruct (directoryReachable env); cbn [negb]; [|now left].
  destruct (credentialsAccepted env c); cbn [negb]; [|now left].
  destruct (directoryAnswer env c) as [[|userFound others]|]; try (now left).
  destruct (sessionRecord env c w) as [found|].
  - destruct (jwtParse env _ _ _) as [tok|]; [|now left].
    destruct (jwt.Valid tok); cbn [negb]; [now left|].
    destruct (updateOneErr env); [now left|]. right. right.
    eexists. reflexivity.
  - destruct (insertOneErr env); [now left|]. right. now left.
Qed.

(** X16. [login] registers no subject: whatever a call does, the userIDs
    under which the collection holds a document are the same afterwards as
    before.  What a first login inserts is the empty document, which no
    later lookup by userID accepts. *)
Theorem login_registers_no_subject
  (env : Env) (c : Request) (w : World bson.D) (id : string) :
  existsb (bson.matches (userFilter id)) (docs (after (login env c) w))
  = existsb (bson.matches (userFilter id)) (docs w).
Proof.
  destruct (login_docs env c w) as [-> | [-> | [token ->]]].
  - reflexivity.
  - apply mongoFacts.existsb_app_rejected, userFilter_rejects_empty.
  - apply mongoFacts.existsb_updateFirst. intros d.
    apply userFilter_after_update.
Qed.

(** X17. Every accepted login of a subject without a findable record
    inserts again: two such logins in a row leave two more empty documents
    behind, the second finding no more of a record than the first, and both
    answer with a fresh token. *)
Theorem login_twice_inserts_twice
  (env : Env) (c : Request) (w : World bson.D)
  (userFound : ldap.Entry) (others : list ldap.Entry) (issued checked : Z) :
  directoryReachable env = true ->
  credentialsAccepted env c = true ->
  directoryAnswer env c = Some (userFound :: others) ->
  sessionRecord env c w = None ->
  insertOneErr env = false ->
  let w1 := after (login env c) w in
  let env' := withClocks env issued checked in
  outcome (login env c) w
  = Returned (JSON StatusOK [("token", issueToken env (FormValue c "zid") userFound)])
  /\ docs w1 = (docs w ++ [[]])%list
  /\ sessionRecord env' c w1 = None
  /\ login env' c w1
     = (Returned
          (JSON StatusOK
             [("token", issueToken env' (FormValue c "zid") userFound)]),
        mkWorld (docs w ++ [[]; []])
          (trace w1 ++ [OpDial; OpBind; OpSearch; OpFindOne; OpInsertOne])).
Proof.
  intros Hdial Hbind Hans Habsent Hins w1 env'.
  assert (Hrun := login_first_time_inserts env c w userFound others
                    Hdial Hbind Hans Habsent Hins).
  assert (Hw1 : docs w1 = (docs w ++ [[]])%list)
    by (unfold w1, after; now rewrite Hrun).
  assert (Habsent' : sessionRecord env' c w1 = None).
  { unfold sessionRecord in *. cbn [env' withClocks findOneErr Sum256].
    destruct (findOneErr env); [reflexivity|].
    rewrite Hw1, (mongoFacts.find_app_absent _ _ _ Habsent).
    now rewrite userFilter_rejects_empty. }
  split; [unfold outcome; now rewrite Hrun|].
  split; [exact Hw1|]. split; [exact Habsent'|].
  rewrite (login_first_time_inserts env' c w1 userFound others);
    try assumption.
  now rewrite Hw1, <- app_assoc.
Qed.

Lemma login_twice_inserts_twice_witness :
  let env := RefEnv.listening 1600000000 1600000000 in
  let w1 := after (login env RefEnv.goodLogin) RefEnv.emptyStore in
  let env' := withClocks env 1600000060 1600000060 in
  outcome (login env RefEnv.goodLogin) RefEnv.emptyStore
  = Returned (JSON StatusOK [("token", "1600086400.secret_text/1600086400")])
  /\ docs w1 = ([] ++ [[]])%list
  /\ sessionRecord env' RefEnv.goodLogin w1 = None
  /\ login env' RefEnv.goodLogin w1
     = (Returned (JSON StatusOK [("token", "1600086460.secret_text/1600086460")]),
        mkWorld ([] ++ [[]; []])
          (trace w1 ++ [OpDial; OpBind; OpSearch; OpFindOne; OpInsertOne])).
Proof.
  apply (login_twice_inserts_twice (RefEnv.listening 1600000000 1600000000)
           RefEnv.goodLogin RefEnv.emptyStore
           (ldap.mkEntry (ldap.DN RefEnv.person)
              [ldap.mkAttribute "givenName" ["Alice"]])
           [] 1600000060 1600000060);
    reflexivity.
Defined.

(** X18. The token of a found record is not what [login] verifies: the
    record decodes to the zero [User], and what is parsed is the empty
    string.  With a library that answers the empty string with a nil token,
    every accepted login that finds a record panics at [SignedString]
    (line 213), after the lookup and before any write, whatever the record
    holds; the record is unchanged for the next attempt. *)
Theorem login_found_record_panics
  (env : Env) (c : Request) (w : World bson.D)
  (userFound : ldap.Entry) (others : list ldap.Entry) (found : bson.D) :
  directoryReachable env = true ->
  credentialsAccepted env c = true ->
  directoryAnswer env c = Some (userFound :: others) ->
  sessionRecord env c w = Some found ->
  jwtParse env (jwtTimeFunc env) "" jwtKey = None ->
  login env c w
  = (Panicked,
     mkWorld (docs w) (trace w ++ [OpDial; OpBind; OpSearch; OpFindOne])).
Proof.
  intros Hdial Hbind Hans Hrec Hnil.
  rewrite login_paths, Hdial, Hbind, Hans, Hrec.
  cbn [negb decodeUser zeroUser userToken]. now rewrite Hnil.
Qed.

Lemma login_found_record_panics_witness :
  login (RefEnv.listening 1600000000 1600000000) RefEnv.goodLogin
    RefEnv.loggedInOnce
  = (Panicked,
     mkWorld (docs RefEnv.loggedInOnce)
       (trace RefEnv.loggedInOnce ++ [OpDial; OpBind; OpSearch; OpFindOne])).
Proof.
  apply (login_found_record_panics (RefEnv.listening 1600000000 1600000000)
           RefEnv.goodLogin RefEnv.loggedInOnce
           (ldap.mkEntry (ldap.DN RefEnv.person)
              [ldap.mkAttribute "givenName" ["Alice"]])
           [] RefEnv.sessionDocument);
    reflexivity.
Defined.

(** X20. When the directory accepts the bind but answers the search with no
    entry, [login] panics at [Entries[0]]: no response is written and the
    Session Store is not reached. *)
Theorem login_no_entry_panics (env : Env) (c : Request) (w : World bson.D) :
  directoryReachable env = true ->
  credentialsAccepted env c = true ->
  directoryAnswer env c = Some [] ->
  login env c w
  = (Panicked, mkWorld (docs w) (trace w ++ [OpDial; OpBind; OpSearch])).
Proof.
  intros Hdial Hbind Hans. now rewrite login_paths, Hdial, Hbind, Hans.
Qed.

Lemma login_no_entry_panics_witness :
  login
    (mkEnv RefEnv.Sum256 (fun _ _ => true) (fun _ _ => true) RefEnv.Search
       1600000000 1600000000 RefEnv.SignedString RefEnv.Parse RefEnv.uuidParse
       false false false false RefEnv.decodePost false)
    (Fixtures.request [("zid", "z7654321"); ("password", "x")])
    RefEnv.emptyStore
  = (Panicked, mkWorld [] ([] ++ [OpDial; OpBind; OpSearch])).
Proof.
  apply (login_no_entry_panics
           (mkEnv RefEnv.Sum256 (fun _ _ => true) (fun _ _ => true)
              RefEnv.Search 1600000000 1600000000 RefEnv.SignedString
              RefEnv.Parse RefEnv.uuidParse false false false false
              RefEnv.decodePost false)
           (Fixtures.request [("zid", "z7654321"); ("password", "x")])
           RefEnv.emptyStore);
    reflexivity.
Defined.

(** ** Listing posts, continued *)

Lemma decodeAll_world (env : Env) (cur : list bson.D) :
  forall (acc : list Post) (w : World bson.D),
    snd (decodeAll env cur acc w) = w.
Proof.
  induction cur as [|d cur IH]; intros acc w; cbn; [reflexivity|].
  destruct (decodePost env d); [apply IH|reflexivity].
Qed.

(** X21. [getAllPosts] only reads: however it ends, the stored documents
    are what they were and the one operation performed is the [Find]. *)
Theorem getAllPosts_read_only (env : Env) (c : Request) (w : World bson.D) :
  after (getAllPosts env c) w = mkWorld (docs w) (trace w ++ [OpFind]).
Proof.
  unfold after, getAllPosts. run_handler.
  destruct (findErr env); [reflexivity|].
  match goal with
  | |- context [decodeAll ?e ?cur ?acc ?w0] =>
      pose proof (decodeAll_world e cur acc w0) as Hw;
      destruct (decodeAll e cur acc w0) as [[posts| |] w1]
  end; cbn [snd docs trace] in *; now subst.
Qed.

Lemma limited_incl {Doc : Type} (limit : Z) (ds : list Doc) (d : Doc) :
  In d (mongo.limited limit ds) -> In d ds.
Proof.
  unfold mongo.limited. destruct (limit =? 0); [trivial|apply firstn_incl].
Qed.

(** X22. With an id that parses to a count other than 0, a returned listing
    holds at most as many posts as the absolute value of the count. *)
Theorem getAllPosts_at_most_count
  (env : Env) (c : Request) (w w' : World bson.D) (r : Response (list Post)) :
  getAllPosts env c w = (Returned r, w') ->
  fst (strconv.Atoi (QueryParam c "id")) <> 0 ->
  exists posts,
    r = JSON StatusOK [("posts", posts)]
    /\ (List.length posts
        <= Z.to_nat (Z.abs (fst (strconv.Atoi (QueryParam c "id")))))%nat.
Proof.
  intros Hrun Hcount.
  destruct (getAllPosts_returned env c w w' r Hrun) as [posts [Hr Hposts]].
  exists posts. split; [exact Hr|].
  rewrite <- (length_map Some posts), Hposts, length_map, postsLimit_is_count.
  unfold mongo.limited.
  destruct (Z.eqb_spec (fst (strconv.Atoi (QueryParam c "id"))) 0);
    [contradiction|].
  apply firstn_le_length.
Qed.

Lemma getAllPosts_at_most_count_witness :
  exists posts,
    JSON StatusOK [("posts", map RefEnv.decoded [1; 2; 3])]
    = JSON StatusOK [("posts", posts)]
    /\ (List.length posts
        <= Z.to_nat (Z.abs (fst (strconv.Atoi
                                   (QueryParam (RefEnv.listPosts "-3") "id")))))%nat.
Proof.
  apply (getAllPosts_at_most_count RefEnv.env (RefEnv.listPosts "-3")
           RefEnv.twelvePosts (mkWorld (docs RefEnv.twelvePosts) [OpFind])).
  - reflexivity.
  - vm_compute. discriminate.
Defined.

(** X23. With a category parameter, every post of a returned listing is
    decoded from a stored document whose field "post_category" is that
    category. *)
Theorem getAllPosts_category_only
  (env : Env) (c : Request) (w w' : World bson.D) (r : Response (list Post)) :
  getAllPosts env c w = (Returned r, w') ->
  QueryParam c "category" <> "" ->
  exists posts ds,
    r = JSON StatusOK [("posts", posts)]
    /\ map Some posts = map (decodePost env) ds
    /\ forall d, In d ds ->
         In d (docs w)
         /\ bson.field "post_category" d
            = Some (bson.Str (QueryParam c "category")).
Proof.
  intros Hrun Hcat.
  destruct (getAllPosts_returned env c w w' r Hrun) as [posts [Hr Hposts]].
  exists posts. eexists. split; [exact Hr|]. split; [exact Hposts|].
  intros d Hin. apply limited_incl, filter_In in Hin.
  destruct Hin as [Hin Hmatch]. split; [exact Hin|].
  unfold postsFilter in Hmatch.
  destruct (String.eqb_spec (QueryParam c "category") ""); [contradiction|].
  unfold bson.matches in Hmatch. cbn [forallb] in Hmatch.
  rewrite andb_true_r in Hmatch.
  apply bsonFacts.holds_value in Hmatch; [exact Hmatch|discriminate].
Qed.

Lemma getAllPosts_category_only_witness :
  exists posts ds,
    JSON StatusOK [("posts", [RefEnv.decoded 1])]
    = JSON StatusOK [("posts", posts)]
    /\ map Some posts = map (decodePost RefEnv.env) ds
    /\ forall d, In d ds ->
         In d (docs Fixtures.posts)
         /\ bson.field "post_category" d = Some (bson.Str "news").
Proof.
  apply (getAllPosts_category_only RefEnv.env
           (Fixtures.request [("category", "news")]) Fixtures.posts
           (mkWorld (docs Fixtures.posts) [OpFind])).
  - reflexivity.
  - vm_compute. discriminate.
Defined.
